(** * Pose normalisation and nearest-template matching of hackharvard2025

    Shallow embedding of the core of
    - [src/backend/classifier_tools/live_hand_tracker.py]
      ([calculate_rms_distance], [find_closest_asl_match],
       [calculate_edge_to_edge_scaling], [normalize_hand_rotation],
       [process_landmarks]);
    - [src/backend/main.py] ([process_landmarks_for_classifier]);
    - [src/aslalphabet/hand_detection.py] ([normalize_hand_rotation] and
      the scaling done inline in [detect_hands_and_save_landmarks]).

    Python floats are modelled in two ways.  The matcher, whose claims
    talk about NaN and +infinity, works over [PyFloat.xR]: a real number
    or one of the IEEE special values, with exact arithmetic on the
    finite part (rounding and overflow are not modelled).  The geometric
    code (scaling and rotation) works over [R]. *)

From Stdlib Require Import Reals Lra Lia List String ZArith Bool.
Import ListNotations.
Open Scope R_scope.

(* ------------------------------------------------------------------ *)
(** ** Python floats with their special values *)

Module PyFloat.

Inductive xR : Type :=
| Fin (r : R)
| PInf
| NInf
| NaN.

Definition xneg (a : xR) : xR :=
  match a with
  | Fin r => Fin (- r)
  | PInf => NInf
  | NInf => PInf
  | NaN => NaN
  end.

(** IEEE addition: NaN absorbs, [inf + -inf] is NaN. *)
Definition xadd (a b : xR) : xR :=
  match a, b with
  | NaN, _ | _, NaN => NaN
  | PInf, NInf | NInf, PInf => NaN
  | PInf, _ | _, PInf => PInf
  | NInf, _ | _, NInf => NInf
  | Fin x, Fin y => Fin (x + y)
  end.

Definition xsub (a b : xR) : xR := xadd a (xneg b).

(** Sign of an infinite product with a finite factor [r]. *)
Definition inf_times (pos : bool) (r : R) : xR :=
  if Rlt_dec 0 r then (if pos then PInf else NInf)
  else if Rlt_dec r 0 then (if pos then NInf else PInf)
  else NaN.

(** IEEE multiplication: [inf * 0] is NaN. *)
Definition xmul (a b : xR) : xR :=
  match a, b with
  | NaN, _ | _, NaN => NaN
  | Fin x, Fin y => Fin (x * y)
  | PInf, Fin r | Fin r, PInf => inf_times true r
  | NInf, Fin r | Fin r, NInf => inf_times false r
  | PInf, PInf | NInf, NInf => PInf
  | PInf, NInf | NInf, PInf => NInf
  end.

(** [x ** 2] for a Python float. *)
Definition xsq (a : xR) : xR := xmul a a.

(** True division.  Python raises [ZeroDivisionError] on a zero divisor;
    the only division of the matcher has a positive divisor (it is
    guarded by [valid_points == 0]), so that branch is never taken. *)
Definition xdiv (a b : xR) : xR :=
  match a, b with
  | NaN, _ | _, NaN => NaN
  | Fin x, Fin y => if Req_dec_T y 0 then NaN else Fin (x / y)
  | Fin _, PInf | Fin _, NInf => Fin 0
  | PInf, Fin r => inf_times true r
  | NInf, Fin r => inf_times false r
  | _, _ => NaN
  end.

(** [math.sqrt].  Python raises [ValueError] on a negative argument; the
    matcher only takes the square root of a mean of squares, which is
    never negative, so that branch is never taken. *)
Definition xsqrt (a : xR) : xR :=
  match a with
  | Fin r => if Rle_dec 0 r then Fin (sqrt r) else NaN
  | PInf => PInf
  | NInf => NaN
  | NaN => NaN
  end.

(** [a < b]: false as soon as one side is NaN. *)
Definition xltb (a b : xR) : bool :=
  match a, b with
  | Fin x, Fin y => if Rlt_dec x y then true else false
  | NInf, Fin _ | NInf, PInf | Fin _, PInf => true
  | _, _ => false
  end.

Definition is_nan (a : xR) : bool :=
  match a with NaN => true | _ => false end.

End PyFloat.

Import PyFloat.

(* ------------------------------------------------------------------ *)
(** ** Python's math helpers over the reals *)

Module PyMath.

(** [math.atan2(y, x)] *)
Definition atan2 (y x : R) : R :=
  if Rlt_dec 0 x then atan (y / x)
  else if Rlt_dec x 0 then
    (if Rle_dec 0 y then atan (y / x) + PI else atan (y / x) - PI)
  else if Rlt_dec 0 y then PI / 2
  else if Rlt_dec y 0 then - (PI / 2)
  else 0.

(** [min(xs)] and [max(xs)] of a non-empty list [x0 :: xs]. *)
Definition list_min (x0 : R) (xs : list R) : R := fold_left Rmin xs x0.
Definition list_max (x0 : R) (xs : list R) : R := fold_left Rmax xs x0.

(** Float equality [a == b]. *)
Definition Reqb (a b : R) : bool := if Req_dec_T a b then true else false.

End PyMath.

Import PyMath.

(* ------------------------------------------------------------------ *)
(** ** live_hand_tracker.py: landmarks, hands and the matcher *)

Module LiveHandTracker.

(** A landmark dict as built by [process_landmarks] (and by
    [process_landmarks_for_classifier] in main.py); [F] is the type of
    its float fields. *)
Record landmark_of (F : Type) : Type := mk_landmark {
  landmark_id : Z;
  landmark_name : string;
  x_raw : F;
  y_raw : F;
  z_raw : F;
  x_scaled : F;
  y_scaled : F;
  z_scaled : F
}.
Arguments mk_landmark {F}.
Arguments landmark_id {F}. Arguments landmark_name {F}.
Arguments x_raw {F}. Arguments y_raw {F}. Arguments z_raw {F}.
Arguments x_scaled {F}. Arguments y_scaled {F}. Arguments z_scaled {F}.

(** A hand dict: ["hand_index"], ["hand_label"], ["confidence"],
    ["landmarks"]. *)
Record hand_of (F : Type) : Type := mk_hand {
  hand_index : Z;
  hand_label : string;
  confidence : F;
  landmarks : list (landmark_of F)
}.
Arguments mk_hand {F}.
Arguments hand_index {F}. Arguments hand_label {F}.
Arguments confidence {F}. Arguments landmarks {F}.

(** A frame dict (the live data, or one letter of the reference
    library loaded from JSON); only its ["hands"] entry is read. *)
Record frame_of (F : Type) : Type := mk_frame {
  hands : list (hand_of F)
}.
Arguments mk_frame {F}.
Arguments hands {F}.

Definition landmark := landmark_of xR.
Definition hand := hand_of xR.
Definition frame := frame_of xR.

(** The body of [for i in range(len(live_points))]: accumulates
    [total_distance_squared] and [valid_points]. *)
Fixpoint rms_loop (live_points asl_points : list landmark)
    (total_distance_squared : xR) (valid_points : nat) : xR * nat :=
  match live_points, asl_points with
  | lp :: lt, ap :: at_ =>
      let distance_squared :=
        xadd (xsq (xsub (x_scaled lp) (x_scaled ap)))
             (xsq (xsub (y_scaled lp) (y_scaled ap))) in
      rms_loop lt at_ (xadd total_distance_squared distance_squared)
               (S valid_points)
  | _, _ => (total_distance_squared, valid_points)
  end.

(** [calculate_rms_distance(live_landmarks, asl_landmarks)]; the first
    argument is the list of live hands, the second a frame dict (never
    empty: it always holds its ["hands"] key, and a hand dict is never
    empty either, so the [not ...] tests reduce to list emptiness). *)
Definition calculate_rms_distance (live_landmarks : list hand)
    (asl_landmarks : frame) : xR :=
  match live_landmarks, hands asl_landmarks with
  | [], _ => PInf
  | _, [] => PInf
  | live_hand :: _, asl_hand :: _ =>
      let live_points := landmarks live_hand in
      let asl_points := landmarks asl_hand in
      if negb (Nat.eqb (List.length live_points) (List.length asl_points)) then PInf
      else
        let '(total_distance_squared, valid_points) :=
          rms_loop live_points asl_points (Fin 0) 0 in
        if Nat.eqb valid_points 0 then PInf
        else xsqrt (xdiv total_distance_squared (Fin (INR valid_points)))
  end.

(** Python truthiness of an optional label: [None] and the empty string are false. *)
Definition truthy (s : option string) : bool :=
  match s with
  | Some v => negb (String.eqb v EmptyString)
  | None => false
  end.

Definition label_differs (a b : option string) : bool :=
  match a, b with
  | Some x, Some y => negb (String.eqb x y)
  | None, None => false
  | _, _ => true
  end.

(** [data['hands'][0]['hand_label'] if data['hands'] else None] *)
Definition first_hand_label (data : frame) : option string :=
  match hands data with
  | h :: _ => Some (hand_label h)
  | [] => None
  end.

(** The orientation adjustment of the loop body. *)
Definition adjusted_distance (live_hand_label asl_hand_label : option string)
    (distance : xR) : xR :=
  if truthy live_hand_label && truthy asl_hand_label
     && label_differs live_hand_label asl_hand_label
  then xmul distance (Fin (11 / 10))  (* 10% penalty *)
  else distance.

(** Result triple [(best_match, best_distance, best_hand_label)]. *)
Definition result := (option string * xR * option string)%type.

Fixpoint match_loop (live_landmarks_data : frame)
    (live_hand_label : option string)
    (asl_alphabet_data : list (string * frame)) (best : result) : result :=
  match asl_alphabet_data with
  | [] => best
  | (letter, asl_data) :: rest =>
      let asl_hand_label := first_hand_label asl_data in
      let distance := calculate_rms_distance (hands live_landmarks_data) asl_data in
      let adjusted := adjusted_distance live_hand_label asl_hand_label distance in
      let '(_, best_distance, _) := best in
      match_loop live_landmarks_data live_hand_label rest
        (if xltb adjusted best_distance
         then (Some letter, adjusted, asl_hand_label)
         else best)
  end.

(** [find_closest_asl_match(live_landmarks_data)]; the global
    [asl_alphabet_data] dict is passed explicitly, as the list of its
    items in iteration (insertion) order. *)
Definition find_closest_asl_match (asl_alphabet_data : list (string * frame))
    (live_landmarks_data : frame) : result :=
  match hands live_landmarks_data with
  | [] => (None, PInf, None)
  | _ =>
      match_loop live_landmarks_data (first_hand_label live_landmarks_data)
        asl_alphabet_data (None, PInf, None)
  end.


(** *** Edge-to-edge scaling *)

(** A MediaPipe [NormalizedLandmark]: [x], [y], [z] as fractions of the
    image size. *)
Record mp_landmark : Type := mk_mp {
  mp_x : R;
  mp_y : R;
  mp_z : R
}.

(** The [scaling_info] dict. *)
Record scaling_info : Type := mk_scaling {
  min_x : R;
  max_x : R;
  min_y : R;
  max_y : R;
  scale_factor : R;
  offset_x : R;
  offset_y : R;
  target_size : R
}.

(** [calculate_edge_to_edge_scaling(landmarks, image_width, image_height)];
    [None] stands for the [return None] of an empty landmark list. *)
Definition calculate_edge_to_edge_scaling (lms : list mp_landmark)
    (image_width image_height : R) : option scaling_info :=
  let all_x_coords := map (fun lm => mp_x lm * image_width) lms in
  let all_y_coords := map (fun lm => mp_y lm * image_height) lms in
  match all_x_coords, all_y_coords with
  | x0 :: xs, y0 :: ys =>
      let min_x := list_min x0 xs in
      let max_x := list_max x0 xs in
      let min_y := list_min y0 ys in
      let max_y := list_max y0 ys in
      (* Add padding (10% of the range) *)
      let x_range := max_x - min_x in
      let y_range := max_y - min_y in
      let padding_x := if Rlt_dec 0 x_range then x_range * (1 / 10) else 10 in
      let padding_y := if Rlt_dec 0 y_range then y_range * (1 / 10) else 10 in
      let min_x := min_x - padding_x in
      let max_x := max_x + padding_x in
      let min_y := min_y - padding_y in
      let max_y := max_y + padding_y in
      let target_size := 2000 in
      let scale_x :=
        if Rlt_dec 0 (max_x - min_x) then target_size / (max_x - min_x) else 1 in
      let scale_y :=
        if Rlt_dec 0 (max_y - min_y) then target_size / (max_y - min_y) else 1 in
      let scale_factor := Rmin scale_x scale_y in
      let scaled_width := (max_x - min_x) * scale_factor in
      let scaled_height := (max_y - min_y) * scale_factor in
      let offset_x := (target_size - scaled_width) / 2 in
      let offset_y := (target_size - scaled_height) / 2 in
      Some (mk_scaling min_x max_x min_y max_y scale_factor offset_x offset_y
              target_size)
  | _, _ => None
  end.

(** The per-landmark map of [process_landmarks] ("Apply edge-to-edge
    scaling"): returns [(x_scaled, y_scaled, z_scaled)]. *)
Definition scale_point (si : option scaling_info) (x_raw y_raw z_raw : R)
    : R * R * R :=
  match si with
  | Some s =>
      ((x_raw - min_x s) * scale_factor s + offset_x s,
       (y_raw - min_y s) * scale_factor s + offset_y s,
       z_raw * scale_factor s)
  | None => (x_raw, y_raw, z_raw)
  end.

(** *** Rotation normalisation *)

(** The [for landmark in landmarks_data] search: the last landmark with
    id 0 and the last with id 9 win. *)
Fixpoint find_wrist_and_index (landmarks_data : list (landmark_of R))
    (wrist_landmark index_tip_landmark : option (landmark_of R))
    : option (landmark_of R) * option (landmark_of R) :=
  match landmarks_data with
  | [] => (wrist_landmark, index_tip_landmark)
  | lm :: rest =>
      if Z.eqb (landmark_id lm) 0
      then find_wrist_and_index rest (Some lm) index_tip_landmark
      else if Z.eqb (landmark_id lm) 9
      then find_wrist_and_index rest wrist_landmark (Some lm)
      else find_wrist_and_index rest wrist_landmark index_tip_landmark
  end.

(** The body of the rotation loop, for one landmark. *)
Definition rotate_landmark (wrist_x wrist_y cos_angle sin_angle : R)
    (lm : landmark_of R) : landmark_of R :=
  let rel_x := x_scaled lm - wrist_x in
  let rel_y := y_scaled lm - wrist_y in
  let rotated_x := rel_x * cos_angle - rel_y * sin_angle in
  let rotated_y := rel_x * sin_angle + rel_y * cos_angle in
  mk_landmark (landmark_id lm) (landmark_name lm)
    (x_raw lm) (y_raw lm) (z_raw lm)
    (rotated_x + 1000) (rotated_y + 2000) (z_scaled lm).

(** [normalize_hand_rotation(landmarks_data)] of live_hand_tracker.py
    (imported by main.py).  The landmark dicts of the list are distinct
    objects, so the in-place update is a [map]. *)
Definition normalize_hand_rotation (landmarks_data : list (landmark_of R))
    : list (landmark_of R) :=
  match find_wrist_and_index landmarks_data None None with
  | (Some wrist_landmark, Some index_tip_landmark) =>
      let wrist_x := x_scaled wrist_landmark in
      let wrist_y := y_scaled wrist_landmark in
      let index_x := x_scaled index_tip_landmark in
      let index_y := y_scaled index_tip_landmark in
      let dx := index_x - wrist_x in
      let dy := index_y - wrist_y in
      if Reqb dx 0 && Reqb dy 0 then landmarks_data
      else
        let rotation_angle := atan2 dy dx in
        let target_angle := - PI / 2 in
        let rotation_to_vertical := target_angle - rotation_angle in
        let cos_angle := cos rotation_to_vertical in
        let sin_angle := sin rotation_to_vertical in
        map (rotate_landmark wrist_x wrist_y cos_angle sin_angle) landmarks_data
  | _ => landmarks_data
  end.

(** [mp.solutions.hands.HandLandmark(idx).name]; [None] where the enum
    raises [ValueError]. *)
Definition hand_landmark_names : list string :=
  ["WRIST"; "THUMB_CMC"; "THUMB_MCP"; "THUMB_IP"; "THUMB_TIP";
   "INDEX_FINGER_MCP"; "INDEX_FINGER_PIP"; "INDEX_FINGER_DIP";
   "INDEX_FINGER_TIP"; "MIDDLE_FINGER_MCP"; "MIDDLE_FINGER_PIP";
   "MIDDLE_FINGER_DIP"; "MIDDLE_FINGER_TIP"; "RING_FINGER_MCP";
   "RING_FINGER_PIP"; "RING_FINGER_DIP"; "RING_FINGER_TIP"; "PINKY_MCP";
   "PINKY_PIP"; "PINKY_DIP"; "PINKY_TIP"]%string.

Definition hand_landmark_name (idx : nat) : option string :=
  nth_error hand_landmark_names idx.

(** The loop of [process_landmarks], from index [idx] on. *)
Fixpoint build_landmarks (idx : nat) (hand_landmarks : list mp_landmark)
    (image_width image_height : R) (si : option scaling_info)
    : option (list (landmark_of R)) :=
  match hand_landmarks with
  | [] => Some []
  | lm :: rest =>
      let x_raw := mp_x lm * image_width in
      let y_raw := mp_y lm * image_height in
      let z_raw := mp_z lm * image_width in
      let '(x_scaled, y_scaled, z_scaled) := scale_point si x_raw y_raw z_raw in
      match hand_landmark_name idx,
            build_landmarks (S idx) rest image_width image_height si with
      | Some name, Some tl =>
          Some (mk_landmark (Z.of_nat idx) name x_raw y_raw z_raw
                  x_scaled y_scaled z_scaled :: tl)
      | _, _ => None
      end
  end.

(** [process_landmarks(hand_landmarks, hand_classification, image_width,
    image_height, scaling_info)]; the classification is unused. *)
Definition process_landmarks (hand_landmarks : list mp_landmark)
    (image_width image_height : R) (si : option scaling_info)
    : option (list (landmark_of R)) :=
  option_map normalize_hand_rotation
    (build_landmarks 0 hand_landmarks image_width image_height si).

End LiveHandTracker.

(* ------------------------------------------------------------------ *)
(** ** main.py: the API's per-request processing *)

Module Main.

Import LiveHandTracker.

(** The scaling computed inside the loop of
    [process_landmarks_for_classifier] from the raw coordinates of all
    landmarks of the hand (no padding).  [None] where [min] of an empty
    list would raise; inside the loop the lists are never empty. *)
Definition api_scaling_info (all_x_coords all_y_coords : list R)
    : option scaling_info :=
  match all_x_coords, all_y_coords with
  | x0 :: xs, y0 :: ys =>
      let min_x := list_min x0 xs in
      let max_x := list_max x0 xs in
      let min_y := list_min y0 ys in
      let max_y := list_max y0 ys in
      let target_size := 2000 in
      let scale_x := if Reqb max_x min_x then 1 else target_size / (max_x - min_x) in
      let scale_y := if Reqb max_y min_y then 1 else target_size / (max_y - min_y) in
      let scale_factor := Rmin scale_x scale_y in
      let scaled_width := (max_x - min_x) * scale_factor in
      let scaled_height := (max_y - min_y) * scale_factor in
      let offset_x := (target_size - scaled_width) / 2 in
      let offset_y := (target_size - scaled_height) / 2 in
      Some (mk_scaling min_x max_x min_y max_y scale_factor offset_x offset_y
              target_size)
  | _, _ => None
  end.

(** [process_landmarks_for_classifier(hand_data, image_width, image_height)]
    (the image size is unused). *)
Definition process_landmarks_for_classifier (hand_data : hand_of R)
    : list (landmark_of R) :=
  let landmarks_data :=
    map (fun lm =>
           let all_x_coords := map x_raw (landmarks hand_data) in
           let all_y_coords := map y_raw (landmarks hand_data) in
           let si := api_scaling_info all_x_coords all_y_coords in
           let '(xs, ys, zs) := scale_point si (x_raw lm) (y_raw lm) (z_raw lm) in
           mk_landmark (landmark_id lm) (landmark_name lm)
             (x_raw lm) (y_raw lm) (z_raw lm) xs ys zs)
        (landmarks hand_data) in
  normalize_hand_rotation landmarks_data.

End Main.

(* ------------------------------------------------------------------ *)
(** ** hand_detection.py: the offline batch tool *)

Module HandDetection.

(** A ["relative_to_wrist_..."] dict. *)
Record rel3 : Type := mk_rel3 { rel_x : R; rel_y : R; rel_z : R }.

(** A landmark dict as built by [detect_hands_and_save_landmarks]. *)
Record landmark : Type := mk_landmark {
  landmark_id : Z;
  landmark_name : string;
  x_original : R;
  y_original : R;
  z_original : R;
  x_scaled : R;
  y_scaled : R;
  z_scaled : R;
  relative_to_wrist_original : rel3;
  relative_to_wrist_scaled : rel3
}.

Fixpoint find_wrist_and_index (landmarks_data : list landmark)
    (wrist_landmark index_tip_landmark : option landmark)
    : option landmark * option landmark :=
  match landmarks_data with
  | [] => (wrist_landmark, index_tip_landmark)
  | lm :: rest =>
      if Z.eqb (landmark_id lm) 0
      then find_wrist_and_index rest (Some lm) index_tip_landmark
      else if Z.eqb (landmark_id lm) 9
      then find_wrist_and_index rest wrist_landmark (Some lm)
      else find_wrist_and_index rest wrist_landmark index_tip_landmark
  end.

(** The loop body: also rewrites the ["x"] and ["y"] entries of
    ["relative_to_wrist_scaled"]. *)
Definition rotate_landmark (wrist_x wrist_y cos_angle sin_angle : R)
    (lm : landmark) : landmark :=
  let rel_x := x_scaled lm - wrist_x in
  let rel_y := y_scaled lm - wrist_y in
  let rotated_x := rel_x * cos_angle - rel_y * sin_angle in
  let rotated_y := rel_x * sin_angle + rel_y * cos_angle in
  mk_landmark (landmark_id lm) (landmark_name lm)
    (x_original lm) (y_original lm) (z_original lm)
    (rotated_x + 1000) (rotated_y + 2000) (z_scaled lm)
    (relative_to_wrist_original lm)
    (mk_rel3 rotated_x rotated_y (rel_z (relative_to_wrist_scaled lm))).

(** [normalize_hand_rotation(landmarks_data)] of hand_detection.py. *)
Definition normalize_hand_rotation (landmarks_data : list landmark)
    : list landmark :=
  match find_wrist_and_index landmarks_data None None with
  | (Some wrist_landmark, Some index_tip_landmark) =>
      let wrist_x := x_scaled wrist_landmark in
      let wrist_y := y_scaled wrist_landmark in
      let index_x := x_scaled index_tip_landmark in
      let index_y := y_scaled index_tip_landmark in
      let dx := index_x - wrist_x in
      let dy := index_y - wrist_y in
      if Reqb dx 0 && Reqb dy 0 then landmarks_data
      else
        let rotation_angle := atan2 dy dx in
        let target_angle := - PI / 2 in
        let rotation_to_vertical := target_angle - rotation_angle in
        let cos_angle := cos rotation_to_vertical in
        let sin_angle := sin rotation_to_vertical in
        map (rotate_landmark wrist_x wrist_y cos_angle sin_angle) landmarks_data
  | _ => landmarks_data
  end.

(** The scaling computed inline in [detect_hands_and_save_landmarks] from
    the pixel coordinates of all landmarks of all hands of an image of
    size [w] x [h]. *)
Definition offline_scaling_info (all_x_coords all_y_coords : list R) (w h : R)
    : LiveHandTracker.scaling_info :=
  match all_x_coords, all_y_coords with
  | x0 :: xs, y0 :: ys =>
      let min_x := list_min x0 xs in
      let max_x := list_max x0 xs in
      let min_y := list_min y0 ys in
      let max_y := list_max y0 ys in
      (* Add some padding (10% of the range) *)
      let x_range := max_x - min_x in
      let y_range := max_y - min_y in
      let padding_x := x_range * (1 / 10) in
      let padding_y := y_range * (1 / 10) in
      let min_x := min_x - padding_x in
      let max_x := max_x + padding_x in
      let min_y := min_y - padding_y in
      let max_y := max_y + padding_y in
      let target_size := 2000 in
      let scale_x :=
        if Rlt_dec 0 (max_x - min_x) then target_size / (max_x - min_x) else 1 in
      let scale_y :=
        if Rlt_dec 0 (max_y - min_y) then target_size / (max_y - min_y) else 1 in
      let scale_factor := Rmin scale_x scale_y in
      let scaled_width := (max_x - min_x) * scale_factor in
      let scaled_height := (max_y - min_y) * scale_factor in
      let offset_x := (target_size - scaled_width) / 2 in
      let offset_y := (target_size - scaled_height) / 2 in
      LiveHandTracker.mk_scaling min_x max_x min_y max_y scale_factor
        offset_x offset_y target_size
  | _, _ =>
      (* Fallback scaling if no landmarks found *)
      LiveHandTracker.mk_scaling 0 w 0 h 1 0 0 2000
  end.

End HandDetection.

(* ------------------------------------------------------------------ *)
(** ** live_hand_tracker.py: the in-memory tracker *)

Module Tracker.

(** The attributes of a [LiveHandTracker] object, for hands of type [Hd]
    and a scaling info of type [Si]; [None] is Python's [None]. *)
Record tracker (Hd Si : Type) : Type := mk_tracker {
  landmarks_data : option (list Hd);
  scaling_info : option Si;
  timestamp : option string;
  hands_detected : nat;
  image_width : Z;
  image_height : Z;
  _lock : bool
}.
Arguments mk_tracker {Hd Si}.
Arguments landmarks_data {Hd Si}. Arguments scaling_info {Hd Si}.
Arguments timestamp {Hd Si}. Arguments hands_detected {Hd Si}.
Arguments image_width {Hd Si}. Arguments image_height {Hd Si}.
Arguments _lock {Hd Si}.

(** [LiveHandTracker()] *)
Definition init {Hd Si : Type} : tracker Hd Si :=
  mk_tracker None None None 0 640 480 false.

(** [update(hands_data, scaling_info, image_width, image_height)];
    [now] is the value of [datetime.now().isoformat()]. *)
Definition update {Hd Si : Type} (self : tracker Hd Si) (hands_data : list Hd)
    (si : option Si) (now : string) (w h : Z) : tracker Hd Si :=
  if _lock self then self  (* Skip update if locked *)
  else mk_tracker (Some hands_data) si (Some now) (List.length hands_data) w h
         (_lock self).

(** The dict returned by [get_data()]. *)
Record tracker_data (Hd Si : Type) : Type := mk_data {
  data_timestamp : option string;
  data_image_width : Z;
  data_image_height : Z;
  data_hands_detected : nat;
  data_scaling_info : option Si;
  data_hands : option (list Hd)
}.
Arguments mk_data {Hd Si}.

Definition get_data {Hd Si : Type} (self : tracker Hd Si) : tracker_data Hd Si :=
  mk_data (timestamp self) (image_width self) (image_height self)
    (hands_detected self) (scaling_info self) (landmarks_data self).

Definition has_data {Hd Si : Type} (self : tracker Hd Si) : bool :=
  match landmarks_data self, timestamp self with
  | Some _, Some _ => true
  | _, _ => false
  end.

(** The arguments of one call of [update]. *)
Definition update_call (Hd Si : Type) : Type :=
  (list Hd * option Si * string * Z * Z)%type.

(** The state after a sequence of [update] calls on a fresh tracker (no
    method sets [_lock]). *)
Definition run_updates {Hd Si : Type} (calls : list (update_call Hd Si))
    : tracker Hd Si :=
  fold_left (fun st '(hs, si, now, w, h) => update st hs si now w h) calls init.

End Tracker.

(* ------------------------------------------------------------------ *)
(** ** live_hand_tracker.py: finger groups of the visualisation *)

Module Fingers.

(** Python's [needle in haystack] on strings. *)
Fixpoint str_in (needle haystack : string) : bool :=
  String.prefix needle haystack ||
  match haystack with
  | EmptyString => false
  | String _ rest => str_in needle rest
  end.

(** The keys of [get_finger_colors()], with their colours. *)
Definition get_finger_colors : list (string * string) :=
  [("THUMB", "#FF6B6B"); ("INDEX_FINGER", "#4ECDC4");
   ("MIDDLE_FINGER", "#45B7D1"); ("RING_FINGER", "#96CEB4");
   ("PINKY", "#FFEAA7"); ("WRIST", "#DDA0DD")]%string.

Definition get_landmark_finger (landmark_name : string) : string :=
  if str_in "WRIST" landmark_name then "WRIST"
  else if str_in "THUMB" landmark_name then "THUMB"
  else if str_in "INDEX_FINGER" landmark_name then "INDEX_FINGER"
  else if str_in "MIDDLE_FINGER" landmark_name then "MIDDLE_FINGER"
  else if str_in "RING_FINGER" landmark_name then "RING_FINGER"
  else if str_in "PINKY" landmark_name then "PINKY"
  else "WRIST".

(** [finger_connections] of [create_landmark_visualization]: the
    landmark indices joined by the lines of each finger. *)
Definition finger_connections : list (string * list nat) :=
  [("THUMB", [0; 1; 2; 3; 4]%nat);
   ("INDEX_FINGER", [0; 5; 6; 7; 8]%nat);
   ("MIDDLE_FINGER", [0; 9; 10; 11; 12]%nat);
   ("RING_FINGER", [0; 13; 14; 15; 16]%nat);
   ("PINKY", [0; 17; 18; 19; 20]%nat)]%string.

End Fingers.

(* ------------------------------------------------------------------ *)
(** ** live_hand_tracker.py: loading the letter library *)

Module Loader.

(** [asl_letters] *)
Definition asl_letters : list string :=
  ["a"; "b"; "c"; "d"; "e"; "f"; "g"; "h"; "i"; "j"; "k"; "l"; "m"; "n";
   "o"; "p"; "q"; "r"; "s"; "t"; "u"; "v"; "w"; "x"; "y"; "z"]%string.

(** [os.path.join(landmarks_dir, f"{letter}_hand_landmarks.json")] *)
Definition json_path (letter : string) : string :=
  ("hand_landmarks/" ++ letter ++ "_hand_landmarks.json")%string.

(** [load_asl_alphabet_data()], run once at import time on the empty
    global dict.  [dir_exists] is [os.path.exists("hand_landmarks")];
    [read_json path] is the frame dict loaded from [path], [None] when the
    file is missing or [json.load] raises (both skip the letter).  The
    letters are distinct, so each assignment adds a new key at the end
    of the dict: the dict is the list of its items in insertion order. *)
Definition load_asl_alphabet_data (dir_exists : bool)
    (read_json : string -> option LiveHandTracker.frame)
    : list (string * LiveHandTracker.frame) :=
  if negb dir_exists then []
  else
    fold_left
      (fun asl_alphabet_data letter =>
         match read_json (json_path letter) with
         | Some data => asl_alphabet_data ++ [(letter, data)]
         | None => asl_alphabet_data
         end)
      asl_letters [].

End Loader.

(* ------------------------------------------------------------------ *)
(** ** hand_detection.py: the landmarks of one hand *)

Module OfflineHand.

Import HandDetection.

(** The [for idx, landmark in enumerate(hand_landmarks.landmark)] loop of
    [detect_hands_and_save_landmarks], from index [idx] on; [wrist] holds
    [(wrist_position, wrist_position_scaled)] once landmark 0 has been
    seen.  [None] where [HandLandmark(idx)] raises, and where a landmark
    after the first would lack its ["relative_to_wrist_..."] entries
    (never: landmark 0 comes first). *)
Fixpoint build_landmarks (idx : nat) (hand_landmarks : list LiveHandTracker.mp_landmark)
    (w h : R) (si : LiveHandTracker.scaling_info)
    (wrist : option ((R * R * R) * (R * R * R))) : option (list landmark) :=
  match hand_landmarks with
  | [] => Some []
  | lm :: rest =>
      let x := LiveHandTracker.mp_x lm * w in
      let y := LiveHandTracker.mp_y lm * h in
      let z := LiveHandTracker.mp_z lm * w in
      let x_scaled := (x - LiveHandTracker.min_x si) * LiveHandTracker.scale_factor si
                      + LiveHandTracker.offset_x si in
      let y_scaled := (y - LiveHandTracker.min_y si) * LiveHandTracker.scale_factor si
                      + LiveHandTracker.offset_y si in
      let z_scaled := z * LiveHandTracker.scale_factor si in
      match LiveHandTracker.hand_landmark_name idx with
      | None => None
      | Some name =>
          if Nat.eqb idx 0 then
            option_map
              (cons (mk_landmark (Z.of_nat idx) name x y z x_scaled y_scaled z_scaled
                       (mk_rel3 0 0 0) (mk_rel3 0 0 0)))
              (build_landmarks (S idx) rest w h si
                 (Some ((x, y, z), (x_scaled, y_scaled, z_scaled))))
          else
            match wrist with
            | Some ((wx, wy, wz), (wxs, wys, wzs)) =>
                option_map
                  (cons (mk_landmark (Z.of_nat idx) name x y z x_scaled y_scaled z_scaled
                           (mk_rel3 (x - wx) (y - wy) (z - wz))
                           (mk_rel3 (x_scaled - wxs) (y_scaled - wys) (z_scaled - wzs))))
                  (build_landmarks (S idx) rest w h si wrist)
            | None => None
            end
      end
  end.

(** The landmarks stored for one hand: built, then
    [normalize_hand_rotation(landmarks)]. *)
Definition hand_landmarks_data (hand_landmarks : list LiveHandTracker.mp_landmark)
    (w h : R) (si : LiveHandTracker.scaling_info) : option (list landmark) :=
  option_map normalize_hand_rotation (build_landmarks 0 hand_landmarks w h si None).

End OfflineHand.

(* ------------------------------------------------------------------ *)
(** ** main.py: the [/predict-letter] endpoint *)

Module Api.

(** The ["message"] of a [PredictionResponse]. *)
Inductive response_message : Type :=
| NoHandData                           (* "No hand data provided" *)
| InvalidLandmarkCount (got : nat)     (* "Invalid landmark count: expected 21, got {got}" *)
| InvalidCoordinates                   (* "Invalid landmark coordinates detected" *)
| NoMatch                              (* "No ASL letter match found" *)
| Predicted (letter : string).         (* "Successfully predicted letter '{letter}'" *)

(** [PredictionResponse]. *)
Record prediction_response : Type := mk_response {
  success : bool;
  predicted_letter : option string;
  confidence : R;
  distance : R;
  hand_label : option string;
  message : response_message
}.

Definition failure (msg : response_message) : prediction_response :=
  mk_response false None 0 999999 None msg.

(** [math.isfinite] *)
Definition isfinite (v : xR) : bool :=
  match v with Fin _ => true | _ => false end.

(** The coordinate test of the validation loop for one landmark. *)
Definition coords_finite (lm : LiveHandTracker.landmark_of xR) : bool :=
  isfinite (LiveHandTracker.x_raw lm) && isfinite (LiveHandTracker.y_raw lm)
  && isfinite (LiveHandTracker.z_raw lm) && isfinite (LiveHandTracker.x_scaled lm)
  && isfinite (LiveHandTracker.y_scaled lm) && isfinite (LiveHandTracker.z_scaled lm).

(** The [for hand_idx, hand in enumerate(request.hands)] validation loop:
    the message of the first failed check, [None] when all pass. *)
Fixpoint validate_hands (hands : list (LiveHandTracker.hand_of xR))
    : option response_message :=
  match hands with
  | [] => None
  | hand :: rest =>
      let n := List.length (LiveHandTracker.landmarks hand) in
      if negb (Nat.eqb n 21) then Some (InvalidLandmarkCount n)
      else if forallb coords_finite (LiveHandTracker.landmarks hand)
      then validate_hands rest
      else Some InvalidCoordinates
  end.

(** The value of a finite float (the validated coordinates). *)
Definition to_real (v : xR) : R :=
  match v with Fin r => r | _ => 0 end.

Definition real_landmark (lm : LiveHandTracker.landmark_of xR)
    : LiveHandTracker.landmark_of R :=
  LiveHandTracker.mk_landmark (LiveHandTracker.landmark_id lm)
    (LiveHandTracker.landmark_name lm)
    (to_real (LiveHandTracker.x_raw lm)) (to_real (LiveHandTracker.y_raw lm))
    (to_real (LiveHandTracker.z_raw lm)) (to_real (LiveHandTracker.x_scaled lm))
    (to_real (LiveHandTracker.y_scaled lm)) (to_real (LiveHandTracker.z_scaled lm)).

(** [float(...)] of a processed landmark. *)
Definition float_landmark (lm : LiveHandTracker.landmark_of R)
    : LiveHandTracker.landmark :=
  LiveHandTracker.mk_landmark (LiveHandTracker.landmark_id lm)
    (LiveHandTracker.landmark_name lm)
    (Fin (LiveHandTracker.x_raw lm)) (Fin (LiveHandTracker.y_raw lm))
    (Fin (LiveHandTracker.z_raw lm)) (Fin (LiveHandTracker.x_scaled lm))
    (Fin (LiveHandTracker.y_scaled lm)) (Fin (LiveHandTracker.z_scaled lm)).

(** The [hand_dict] built for one validated hand. *)
Definition process_hand (hand : LiveHandTracker.hand_of xR) : LiveHandTracker.hand :=
  let real_hand :=
    LiveHandTracker.mk_hand (LiveHandTracker.hand_index hand)
      (LiveHandTracker.hand_label hand) (to_real (LiveHandTracker.confidence hand))
      (map real_landmark (LiveHandTracker.landmarks hand)) in
  LiveHandTracker.mk_hand (LiveHandTracker.hand_index hand)
    (LiveHandTracker.hand_label hand) (LiveHandTracker.confidence hand)
    (map float_landmark (Main.process_landmarks_for_classifier real_hand)).

(** [str.upper()] on ASCII strings (the library's keys are the letters
    of [asl_letters]). *)
Definition ascii_upper (c : Ascii.ascii) : Ascii.ascii :=
  let n := Ascii.nat_of_ascii c in
  if Nat.leb 97 n && Nat.leb n 122 then Ascii.ascii_of_nat (n - 32) else c.

Fixpoint upper (s : string) : string :=
  match s with
  | EmptyString => EmptyString
  | String c rest => String (ascii_upper c) (upper rest)
  end.

(** [predict_letter_from_landmarks(request)]; the global
    [asl_alphabet_data] is passed explicitly as in
    [find_closest_asl_match], and [request.hands] is the only field the
    prediction reads.  No step raises: [min] and [max] see 21 values. *)
Definition predict_letter_from_landmarks
    (asl_alphabet_data : list (string * LiveHandTracker.frame))
    (request_hands : list (LiveHandTracker.hand_of xR)) : prediction_response :=
  match request_hands with
  | [] => failure NoHandData
  | first_hand :: _ =>
      match validate_hands request_hands with
      | Some msg => failure msg
      | None =>
          let landmarks_data := LiveHandTracker.mk_frame (map process_hand request_hands) in
          match LiveHandTracker.find_closest_asl_match asl_alphabet_data landmarks_data with
          | (None, _, _) => failure NoMatch
          | (Some best_match, best_distance, _) =>
              (* a non-finite distance is reported as 999999.0 *)
              let best_distance := match best_distance with Fin r => r | _ => 999999 end in
              let max_expected_distance := 1000 in
              let confidence :=
                Rmax 0 (Rmin 1 (1 - best_distance / max_expected_distance)) in
              mk_response true (Some (upper best_match)) confidence best_distance
                (Some (LiveHandTracker.hand_label first_hand))
                (Predicted (upper best_match))
          end
      end
  end.

End Api.

(* ------------------------------------------------------------------ *)
(** ** Reading aids for the statements *)

Module Specs.

Import LiveHandTracker.

(** A finite Python float is a real. *)
Definition lift_landmark (lm : landmark_of R) : landmark :=
  mk_landmark (landmark_id lm) (landmark_name lm)
    (Fin (x_raw lm)) (Fin (y_raw lm)) (Fin (z_raw lm))
    (Fin (x_scaled lm)) (Fin (y_scaled lm)) (Fin (z_scaled lm)).

Definition lift_hand (h : hand_of R) : hand :=
  mk_hand (hand_index h) (hand_label h) (Fin (confidence h))
    (map lift_landmark (landmarks h)).

(** The spec's [Σ_i [ (qx_i - rx_i)^2 + (qy_i - ry_i)^2 ]]. *)
Fixpoint sum_sq_xy (q r : list (landmark_of R)) : R :=
  match q, r with
  | a :: qt, b :: rt =>
      ((x_scaled a - x_scaled b) ^ 2 + (y_scaled a - y_scaled b) ^ 2)
      + sum_sq_xy qt rt
  | _, _ => 0
  end.

(** A (letter, adjusted distance, reference label) triple compared by the
    selection loop. *)
Definition candidate := (string * xR * option string)%type.

Definition cand_dist (c : candidate) : xR := snd (fst c).

(** The adjusted distance of every library entry, in iteration order. *)
Definition candidates (asl_alphabet_data : list (string * frame))
    (live_landmarks_data : frame) : list candidate :=
  map (fun '(letter, asl_data) =>
         let asl_hand_label := first_hand_label asl_data in
         (letter,
          adjusted_distance (first_hand_label live_landmarks_data) asl_hand_label
            (calculate_rms_distance (hands live_landmarks_data) asl_data),
          asl_hand_label))
      asl_alphabet_data.

(** Keep-the-strict-minimum scan over candidates. *)
Fixpoint keep_min (cs : list candidate) (best : result) : result :=
  match cs with
  | [] => best
  | (letter, d, lbl) :: rest =>
      let '(_, best_distance, _) := best in
      keep_min rest (if xltb d best_distance then (Some letter, d, lbl) else best)
  end.

(** The spec's orientation rule: both labels present and different
    means a 1.1 factor. *)
Definition penalised_distance_spec (q r : option string) (raw : xR) : xR :=
  match q, r with
  | Some a, Some b =>
      if String.eqb a b then raw else xmul raw (Fin (11 / 10))
  | _, _ => raw
  end.

(** The same rule, reading an empty label as absent. *)
Definition penalised_distance_nonempty (q r : option string) (raw : xR) : xR :=
  match q, r with
  | Some a, Some b =>
      if String.eqb a EmptyString || String.eqb b EmptyString || String.eqb a b
      then raw else xmul raw (Fin (11 / 10))
  | _, _ => raw
  end.

(** [max(coords) - min(coords)] of a coordinate list (0 when empty). *)
Definition coord_range (coords : list R) : R :=
  match coords with
  | [] => 0
  | c0 :: cs => list_max c0 cs - list_min c0 cs
  end.

(** The padding added on each side by [calculate_edge_to_edge_scaling]
    to a box [lo, hi]. *)
Definition pad_of (lo hi : R) : R :=
  if Rlt_dec 0 (hi - lo) then (hi - lo) * (1 / 10) else 10.

(** Every ["relative_to_wrist_original"] and ["relative_to_wrist_scaled"]
    entry of [lm] is its position minus that of the wrist landmark [wr]. *)
Definition rel_consistent (wr lm : HandDetection.landmark) : Prop :=
  HandDetection.rel_x (HandDetection.relative_to_wrist_original lm)
    = HandDetection.x_original lm - HandDetection.x_original wr /\
  HandDetection.rel_y (HandDetection.relative_to_wrist_original lm)
    = HandDetection.y_original lm - HandDetection.y_original wr /\
  HandDetection.rel_z (HandDetection.relative_to_wrist_original lm)
    = HandDetection.z_original lm - HandDetection.z_original wr /\
  HandDetection.rel_x (HandDetection.relative_to_wrist_scaled lm)
    = HandDetection.x_scaled lm - HandDetection.x_scaled wr /\
  HandDetection.rel_y (HandDetection.relative_to_wrist_scaled lm)
    = HandDetection.y_scaled lm - HandDetection.y_scaled wr /\
  HandDetection.rel_z (HandDetection.relative_to_wrist_scaled lm)
    = HandDetection.z_scaled lm - HandDetection.z_scaled wr.

(** Sample inputs used by the witnesses. *)
Definition example_query_hand : hand_of R :=
  mk_hand 0 "Right" 1
    [mk_landmark 0 "WRIST" 100 200 0 0 0 0;
     mk_landmark 9 "MIDDLE_FINGER_MCP" 100 100 0 3 4 0].

Definition example_reference_hand : hand_of R :=
  mk_hand 0 "Left" (9 / 10)
    [mk_landmark 0 "WRIST" 50 50 1 0 0 5;
     mk_landmark 9 "MIDDLE_FINGER_MCP" 50 10 1 0 0 5].

Definition example_rotation_input : list (landmark_of R) :=
  [mk_landmark 0 "WRIST" 0 0 0 500 600 0;
   mk_landmark 5 "INDEX_FINGER_MCP" 0 0 0 650 650 0;
   mk_landmark 9 "MIDDLE_FINGER_MCP" 0 0 0 700 600 0].

Definition example_offline_rotation_input : list HandDetection.landmark :=
  [HandDetection.mk_landmark 0 "WRIST" 0 0 0 500 600 0
     (HandDetection.mk_rel3 0 0 0) (HandDetection.mk_rel3 0 0 0);
   HandDetection.mk_landmark 9 "MIDDLE_FINGER_MCP" 0 0 0 700 600 0
     (HandDetection.mk_rel3 0 0 0) (HandDetection.mk_rel3 200 0 0)].

Definition example_mp_landmarks : list mp_landmark :=
  [mk_mp 0 0 0; mk_mp 1 1 0].

End Specs.

(* ================================================================== *)
(** * Properties *)

Import LiveHandTracker Specs.

(** ** Facts about Python float comparison *)

Ltac xR_cases :=
  repeat match goal with
  | x : xR |- _ => destruct x
  end;
  simpl in *;
  repeat match goal with
  | |- context [Rlt_dec ?a ?b] => destruct (Rlt_dec a b)
  | H : context [Rlt_dec ?a ?b] |- _ => destruct (Rlt_dec a b)
  end;
  try discriminate; try reflexivity; try lra.

Lemma xltb_trans (a b c : xR) :
  xltb a b = true -> xltb b c = true -> xltb a c = true.
Proof. intros H1 H2. xR_cases. Qed.

Lemma xltb_not_lt (a b c : xR) :
  xltb a b = true -> xltb c b = false -> is_nan c = false -> xltb a c = true.
Proof. intros H1 H2 H3. xR_cases. Qed.

Lemma xltb_PInf_fin (d : xR) :
  xltb d PInf = true -> d = NInf \/ exists r, d = Fin r.
Proof. destruct d; simpl; intros H; try discriminate; eauto. Qed.

(** ** The selection loop *)

Lemma keep_min_spec (cs : list candidate) (bm : option string) (bd : xR)
    (bl : option string) :
  (exists pre letter d lbl post,
      cs = pre ++ (letter, d, lbl) :: post /\ xltb d bd = true /\
      (forall c, In c pre -> xltb d (cand_dist c) = true \/ is_nan (cand_dist c) = true) /\
      (forall c, In c post -> xltb (cand_dist c) d = false) /\
      keep_min cs (bm, bd, bl) = (Some letter, d, lbl))
  \/ ((forall c, In c cs -> xltb (cand_dist c) bd = false) /\
      keep_min cs (bm, bd, bl) = (bm, bd, bl)).
Proof.
  revert bm bd bl.
  induction cs as [| [[l0 d0] lb0] rest IH]; intros bm bd bl.
  - right. split; [intros c [] | reflexivity].
  - simpl. destruct (xltb d0 bd) eqn:Hlt.
    + destruct (IH (Some l0) d0 lb0) as
        [(pre & letter & d & lbl & post & Hcs & Hd & Hpre & Hpost & Hres)
        | (Hall & Hres)].
      * left. exists ((l0, d0, lb0) :: pre), letter, d, lbl, post.
        repeat split.
        -- rewrite Hcs. reflexivity.
        -- eapply xltb_trans; eassumption.
        -- intros c [<- | Hin]; [left; exact Hd | exact (Hpre c Hin)].
        -- exact Hpost.
        -- exact Hres.
      * left. exists [], l0, d0, lb0, rest. repeat split; auto; intros c [].
    + destruct (IH bm bd bl) as
        [(pre & letter & d & lbl & post & Hcs & Hd & Hpre & Hpost & Hres)
        | (Hall & Hres)].
      * left. exists ((l0, d0, lb0) :: pre), letter, d, lbl, post.
        repeat split; auto.
        -- rewrite Hcs. reflexivity.
        -- intros c [<- | Hin]; [| exact (Hpre c Hin)].
           unfold cand_dist; simpl.
           destruct (is_nan d0) eqn:Hn; [right; reflexivity | left].
           eapply xltb_not_lt; eassumption.
      * right. split; [| exact Hres].
        intros c [<- | Hin]; [exact Hlt | exact (Hall c Hin)].
Qed.

Lemma match_loop_keep_min (lib : list (string * frame)) (live : frame)
    (best : result) :
  match_loop live (first_hand_label live) lib best
  = keep_min (candidates lib live) best.
Proof.
  revert best. induction lib as [| [letter asl] rest IH]; intros best.
  - reflexivity.
  - simpl. destruct best as [[bm bd] bl]. apply IH.
Qed.

Lemma keep_min_all_PInf (cs : list candidate) (b : result) :
  (forall c, In c cs -> cand_dist c = PInf) -> keep_min cs b = b.
Proof.
  revert b. induction cs as [| [[l d] lb] rest IH]; intros [[bm bd] bl] Hall.
  - reflexivity.
  - assert (Hd : d = PInf) by exact (Hall (l, d, lb) (or_introl eq_refl)).
    subst d. simpl. apply IH. intros c Hc. apply Hall. right. exact Hc.
Qed.

Lemma find_closest_keep_min (lib : list (string * frame)) (live : frame) :
  find_closest_asl_match lib live
  = keep_min (candidates lib live) (None, PInf, None).
Proof.
  unfold find_closest_asl_match.
  destruct (hands live) as [| h hs] eqn:Hh.
  - symmetry. apply keep_min_all_PInf.
    intros c Hc. unfold candidates in Hc. apply in_map_iff in Hc.
    destruct Hc as [[letter asl] [<- _]].
    unfold cand_dist, adjusted_distance, first_hand_label, calculate_rms_distance.
    simpl. rewrite Hh. reflexivity.
  - apply match_loop_keep_min.
Qed.

(** ** Shape of the distances *)

Lemma xsqrt_shape (a : xR) :
  xsqrt a = PInf \/ xsqrt a = NaN \/ exists r, 0 <= r /\ xsqrt a = Fin r.
Proof.
  destruct a as [r | | |]; simpl; auto.
  destruct (Rle_dec 0 r); auto.
  right; right. exists (sqrt r). split; [apply sqrt_pos | reflexivity].
Qed.

Lemma calculate_rms_distance_shape (lh : list hand) (asl : frame) :
  calculate_rms_distance lh asl = PInf \/ calculate_rms_distance lh asl = NaN \/
  exists r, 0 <= r /\ calculate_rms_distance lh asl = Fin r.
Proof.
  unfold calculate_rms_distance.
  destruct lh as [| h hs]; [auto |].
  destruct (hands asl) as [| a rest]; [auto |].
  destruct (negb _); [auto |].
  destruct (rms_loop _ _ _ _) as [t v].
  destruct (Nat.eqb v 0); [auto |].
  apply xsqrt_shape.
Qed.

Lemma adjusted_distance_shape (q r : option string) (d : xR) :
  (d = PInf \/ d = NaN \/ exists x, 0 <= x /\ d = Fin x) ->
  adjusted_distance q r d = PInf \/ adjusted_distance q r d = NaN \/
  exists x, 0 <= x /\ adjusted_distance q r d = Fin x.
Proof.
  intros Hd. unfold adjusted_distance.
  destruct (_ && _ && _); [| exact Hd].
  destruct Hd as [-> | [-> | (x & Hx & ->)]]; simpl.
  - unfold inf_times. destruct (Rlt_dec 0 (11 / 10)); [auto | lra].
  - auto.
  - right; right. exists (x * (11 / 10)). split; [nra | reflexivity].
Qed.

Lemma candidates_shape (lib : list (string * frame)) (live : frame) (c : candidate) :
  In c (candidates lib live) ->
  cand_dist c = PInf \/ cand_dist c = NaN \/ exists x, 0 <= x /\ cand_dist c = Fin x.
Proof.
  unfold candidates. intros Hc. apply in_map_iff in Hc.
  destruct Hc as [[letter asl] [<- _]].
  unfold cand_dist; simpl.
  apply adjusted_distance_shape, calculate_rms_distance_shape.
Qed.

(** ** Distances over finite coordinates *)

Lemma sum_sq_xy_nonneg (q r : list (landmark_of R)) : 0 <= sum_sq_xy q r.
Proof.
  revert r. induction q as [| a qt IH]; intros [| b rt]; simpl; try lra.
  specialize (IH rt).
  assert (0 <= (x_scaled a - x_scaled b) ^ 2) by apply pow2_ge_0.
  assert (0 <= (y_scaled a - y_scaled b) ^ 2) by apply pow2_ge_0.
  lra.
Qed.

Lemma rms_loop_lift (q r : list (landmark_of R)) (t : R) (v : nat) :
  List.length q = List.length r ->
  rms_loop (map lift_landmark q) (map lift_landmark r) (Fin t) v
  = (Fin (t + sum_sq_xy q r), (v + List.length q)%nat).
Proof.
  revert r t v.
  induction q as [| a qt IH]; intros [| b rt] t v Hlen; simpl in Hlen;
    try discriminate.
  - simpl. f_equal; [f_equal; ring | lia].
  - simpl. rewrite IH by lia. f_equal; [f_equal; ring | lia].
Qed.

(** ** Claims on the matcher *)

Lemma rms_distance_lift (qh rh : hand_of R)
    (qs rs : list (hand_of R)) :
  List.length (landmarks qh) = List.length (landmarks rh) ->
  (0 < List.length (landmarks qh))%nat ->
  calculate_rms_distance (map lift_hand (qh :: qs))
    (mk_frame (map lift_hand (rh :: rs)))
  = Fin (sqrt (/ INR (List.length (landmarks qh))
               * sum_sq_xy (landmarks qh) (landmarks rh))).
Proof.
  intros Hlen Hpos.
  unfold calculate_rms_distance. cbn [map hands landmarks lift_hand].
  rewrite !length_map, Hlen, Nat.eqb_refl. cbn [negb].
  rewrite rms_loop_lift by exact Hlen.
  rewrite Hlen in Hpos |- *. simpl plus.
  destruct (Nat.eqb_spec (List.length (landmarks rh)) 0) as [H0 | _]; [lia |].
  assert (Hn : 0 < INR (List.length (landmarks rh))) by (apply lt_0_INR; exact Hpos).
  pose proof (sum_sq_xy_nonneg (landmarks qh) (landmarks rh)) as Hs.
  unfold xdiv. destruct (Req_dec_T (INR (List.length (landmarks rh))) 0); [lra |].
  unfold xsqrt.
  destruct (Rle_dec 0 ((0 + sum_sq_xy (landmarks qh) (landmarks rh))
                       / INR (List.length (landmarks rh)))) as [_ | Hneg].
  - f_equal. f_equal. unfold Rdiv. ring.
  - exfalso. apply Hneg. unfold Rdiv.
    apply Rmult_le_pos; [lra | apply Rlt_le, Rinv_0_lt_compat; exact Hn].
Qed.

(** C1: for a query hand and a reference hand with the same number
    [N > 0] of landmarks, with finite coordinates, [calculate_rms_distance]
    is [sqrt((1/N) * Σ_i ((qx_i - rx_i)^2 + (qy_i - ry_i)^2))] over the
    scaled x and y coordinates of the first hands; nothing else of the
    hands (z, raw coordinates, confidence, labels, later hands) enters. *)
Theorem calculate_rms_distance_formula (qh rh : hand_of R)
    (qs rs : list (hand_of R)) :
  List.length (landmarks qh) = List.length (landmarks rh) ->
  (0 < List.length (landmarks qh))%nat ->
  calculate_rms_distance (map lift_hand (qh :: qs))
    (mk_frame (map lift_hand (rh :: rs)))
  = Fin (sqrt (/ INR (List.length (landmarks qh))
               * sum_sq_xy (landmarks qh) (landmarks rh))).
Proof. apply rms_distance_lift. Qed.

(** C3 (amended): [find_closest_asl_match] returns the first library
    entry, in iteration order, whose adjusted distance is below +inf and
    strictly smaller than every earlier entry's (NaN distances aside)
    and not larger than any later entry's, with that distance and that
    entry's label; when no entry has an adjusted distance below +inf
    it returns [(None, +inf, None)]. *)
Theorem find_closest_asl_match_first_minimum (lib : list (string * frame))
    (live : frame) :
  (exists pre letter d lbl post,
      candidates lib live = pre ++ (letter, d, lbl) :: post /\
      xltb d PInf = true /\
      (forall c, In c pre ->
         xltb d (cand_dist c) = true \/ is_nan (cand_dist c) = true) /\
      (forall c, In c post -> xltb (cand_dist c) d = false) /\
      find_closest_asl_match lib live = (Some letter, d, lbl))
  \/ ((forall c, In c (candidates lib live) -> xltb (cand_dist c) PInf = false) /\
      find_closest_asl_match lib live = (None, PInf, None)).
Proof.
  rewrite find_closest_keep_min. apply keep_min_spec.
Qed.

(** C3 fails as stated: with one hand in the query and a one-entry
    library whose hand has a different landmark count, no letter is
    returned. *)
Lemma find_closest_asl_match_no_letter_on_count_mismatch :
  find_closest_asl_match
    [("a"%string,
      mk_frame [lift_hand (mk_hand 0 "Right" 1
        [mk_landmark 0 "WRIST" 0 0 0 0 0 0;
         mk_landmark 1 "THUMB_CMC" 0 0 0 0 0 0])])]
    (mk_frame [lift_hand (mk_hand 0 "Right" 1
        [mk_landmark 0 "WRIST" 0 0 0 0 0 0])])
  = (None, PInf, None).
Proof. reflexivity. Qed.

(** C7: the distance returned by [find_closest_asl_match] is never NaN:
    the result is either [(None, +inf, None)] or a letter with a finite,
    non-negative distance. *)
Theorem find_closest_asl_match_never_nan (lib : list (string * frame))
    (live : frame) :
  is_nan (snd (fst (find_closest_asl_match lib live))) = false /\
  (find_closest_asl_match lib live = (None, PInf, None) \/
   exists letter r lbl, 0 <= r /\
     find_closest_asl_match lib live = (Some letter, Fin r, lbl)).
Proof.
  rewrite find_closest_keep_min.
  destruct (keep_min_spec (candidates lib live) None PInf None) as
    [(pre & letter & d & lbl & post & Hcs & Hd & _ & _ & Hres) | (_ & Hres)];
    rewrite Hres.
  - assert (Hin : In (letter, d, lbl) (candidates lib live))
      by (rewrite Hcs; apply in_or_app; right; left; reflexivity).
    destruct (candidates_shape lib live _ Hin) as [Hc | [Hc | (x & Hx & Hc)]];
      unfold cand_dist in Hc; simpl in Hc; subst d; try discriminate.
    split; [reflexivity |]. right. exists letter, x, lbl. auto.
  - split; [reflexivity | left; reflexivity].
Qed.

(** A query whose scaled coordinates are NaN matches nothing. *)
Example find_closest_asl_match_nan_query :
  find_closest_asl_match
    [("a"%string,
      mk_frame [mk_hand 0 "Right" (Fin 1)
        [mk_landmark 0 "WRIST" (Fin 0) (Fin 0) (Fin 0) (Fin 0) (Fin 0) (Fin 0)]])]
    (mk_frame [mk_hand 0 "Right" (Fin 1)
        [mk_landmark 0 "WRIST" NaN NaN NaN NaN NaN NaN]])
  = (None, PInf, None).
Proof. reflexivity. Qed.

(** C6: no-data conditions give "no match" rather than an error: a query
    with no hand or an empty library gives [(None, +inf, None)], and
    [calculate_rms_distance] is +inf when either side has no hand or the
    first hands' landmark counts differ. *)
Theorem no_data_gives_no_match :
  (forall lib, find_closest_asl_match lib (mk_frame []) = (None, PInf, None)) /\
  (forall live, find_closest_asl_match [] live = (None, PInf, None)) /\
  (forall asl, calculate_rms_distance [] asl = PInf) /\
  (forall live_hands, calculate_rms_distance live_hands (mk_frame []) = PInf) /\
  (forall lh lt ah at_,
     List.length (landmarks lh) <> List.length (landmarks ah) ->
     calculate_rms_distance (lh :: lt) (mk_frame (ah :: at_)) = PInf).
Proof.
  repeat split.
  - intros live. unfold find_closest_asl_match.
    destruct (hands live); reflexivity.
  - intros [| h hs]; reflexivity.
  - intros lh lt ah at_ Hne. unfold calculate_rms_distance. cbn [hands].
    destruct (Nat.eqb_spec (List.length (landmarks lh)) (List.length (landmarks ah)));
      [contradiction | reflexivity].
Qed.

(** C2 (amended): every library entry takes part in the comparison, with
    the raw RMS distance multiplied by exactly 1.1 when both hand labels
    are present, non-empty and different, and unchanged otherwise; a
    cross-orientation entry is never excluded: alone in the library with
    a finite raw distance, it is the match. *)
Theorem find_closest_asl_match_orientation_penalty :
  (forall lib live,
     find_closest_asl_match lib live
     = keep_min
         (map (fun '(letter, asl_data) =>
                 (letter,
                  penalised_distance_nonempty (first_hand_label live)
                    (first_hand_label asl_data)
                    (calculate_rms_distance (hands live) asl_data),
                  first_hand_label asl_data)) lib)
         (None, PInf, None)) /\
  (forall letter asl_data live r,
     calculate_rms_distance (hands live) asl_data = Fin r ->
     find_closest_asl_match [(letter, asl_data)] live
     = (Some letter,
        penalised_distance_nonempty (first_hand_label live)
          (first_hand_label asl_data) (Fin r),
        first_hand_label asl_data)).
Proof.
  assert (Hadj : forall q r d,
             adjusted_distance q r d = penalised_distance_nonempty q r d).
  { intros [a |] [b |] d; unfold adjusted_distance, penalised_distance_nonempty,
      truthy, label_differs; simpl;
      try destruct (String.eqb a EmptyString);
      try destruct (String.eqb b EmptyString);
      try destruct (String.eqb a b); reflexivity. }
  split.
  - intros lib live. rewrite find_closest_keep_min. unfold candidates.
    f_equal. apply map_ext. intros [letter asl_data]. rewrite Hadj. reflexivity.
  - intros letter asl_data live r Hr.
    rewrite find_closest_keep_min. unfold candidates. cbn [map].
    rewrite Hr, Hadj. cbn [keep_min].
    assert (Hlt : xltb (penalised_distance_nonempty (first_hand_label live)
                          (first_hand_label asl_data) (Fin r)) PInf = true).
    { unfold penalised_distance_nonempty.
      destruct (first_hand_label live), (first_hand_label asl_data);
        try reflexivity.
      destruct (_ || _ || _); reflexivity. }
    rewrite Hlt. reflexivity.
Qed.

(** C2 fails as stated: a reference whose label is the empty string is
    compared with its raw distance, without the 1.1 factor, although
    both labels are present and differ. *)
Lemma empty_label_escapes_penalty :
  calculate_rms_distance
    [lift_hand (mk_hand 0 "Left" 1 [mk_landmark 0 "WRIST" 0 0 0 0 0 0])]
    (mk_frame [lift_hand (mk_hand 0 EmptyString 1
                 [mk_landmark 0 "WRIST" 0 0 0 1 0 0])]) = Fin 1 /\
  find_closest_asl_match
    [("a"%string, mk_frame [lift_hand (mk_hand 0 EmptyString 1
                   [mk_landmark 0 "WRIST" 0 0 0 1 0 0])])]
    (mk_frame [lift_hand (mk_hand 0 "Left" 1 [mk_landmark 0 "WRIST" 0 0 0 0 0 0])])
  = (Some "a"%string, Fin 1, Some EmptyString) /\
  Fin 1 <> xmul (Fin 1) (Fin (11 / 10)).
Proof.
  assert (Hd : calculate_rms_distance
    [lift_hand (mk_hand 0 "Left" 1 [mk_landmark 0 "WRIST" 0 0 0 0 0 0])]
    (mk_frame [lift_hand (mk_hand 0 EmptyString 1
                 [mk_landmark 0 "WRIST" 0 0 0 1 0 0])]) = Fin 1).
  { pose proof (rms_distance_lift
               (mk_hand 0 "Left" 1 [mk_landmark 0 "WRIST" 0 0 0 0 0 0])
               (mk_hand 0 EmptyString 1 [mk_landmark 0 "WRIST" 0 0 0 1 0 0])
               [] []) as H.
    cbn [map] in H. rewrite H by (simpl; lia).
    f_equal. transitivity (sqrt 1); [f_equal; simpl; field | apply sqrt_1]. }
  split; [exact Hd | split].
  - rewrite find_closest_keep_min. unfold candidates. cbn [map].
    unfold hands at 1. rewrite Hd. simpl.
    destruct (Rlt_dec 0 1); [reflexivity | lra].
  - simpl. intros H. injection H. lra.
Qed.

(** ** Rotation normalisation *)

Lemma Forall2_map_self {A B : Type} (P : A -> B -> Prop) (f : A -> B) (l : list A) :
  (forall a, P a (f a)) -> Forall2 P l (map f l).
Proof. intros Hf. induction l; constructor; auto. Qed.

Lemma Forall2_self {A : Type} (P : A -> A -> Prop) (l : list A) :
  (forall a, P a a) -> Forall2 P l l.
Proof. intros Hf. induction l; constructor; auto. Qed.

Module LiveRotation.

Lemma find_no_wrist (l : list (landmark_of R)) w i :
  (forall lm, In lm l -> landmark_id lm <> 0%Z) ->
  fst (find_wrist_and_index l w i) = w.
Proof.
  revert w i. induction l as [| lm rest IH]; intros w i Hl; [reflexivity |].
  simpl. destruct (Z.eqb_spec (landmark_id lm) 0) as [E | _].
  - exfalso. exact (Hl lm (or_introl eq_refl) E).
  - destruct (Z.eqb (landmark_id lm) 9); apply IH; intros x Hx; apply Hl; right; exact Hx.
Qed.

Lemma find_no_index (l : list (landmark_of R)) w i :
  (forall lm, In lm l -> landmark_id lm <> 9%Z) ->
  snd (find_wrist_and_index l w i) = i.
Proof.
  revert w i. induction l as [| lm rest IH]; intros w i Hl; [reflexivity |].
  simpl. destruct (Z.eqb (landmark_id lm) 0).
  - apply IH; intros x Hx; apply Hl; right; exact Hx.
  - destruct (Z.eqb_spec (landmark_id lm) 9) as [E | _].
    + exfalso. exact (Hl lm (or_introl eq_refl) E).
    + apply IH; intros x Hx; apply Hl; right; exact Hx.
Qed.

Lemma find_wrist_in (l : list (landmark_of R)) w0 i0 w i :
  find_wrist_and_index l w0 i0 = (Some w, i) ->
  w0 = Some w \/ (In w l /\ landmark_id w = 0%Z).
Proof.
  revert w0 i0. induction l as [| lm rest IH]; intros w0 i0 H.
  - simpl in H. injection H as -> _. left; reflexivity.
  - simpl in H. destruct (Z.eqb_spec (landmark_id lm) 0) as [E | _].
    + destruct (IH _ _ H) as [Hs | [Hin Hid]].
      * injection Hs as ->. right. split; [left; reflexivity | exact E].
      * right. split; [right; exact Hin | exact Hid].
    + destruct (Z.eqb (landmark_id lm) 9);
        destruct (IH _ _ H) as [Hs | [Hin Hid]]; auto;
        right; split; auto; right; exact Hin.
Qed.

Lemma unchanged_without_refs (l : list (landmark_of R)) :
  (forall lm, In lm l -> landmark_id lm <> 0%Z) \/
  (forall lm, In lm l -> landmark_id lm <> 9%Z) ->
  normalize_hand_rotation l = l.
Proof.
  intros Hl. unfold normalize_hand_rotation.
  destruct (find_wrist_and_index l None None) as [[w |] [i |]] eqn:E; try reflexivity.
  exfalso. destruct Hl as [H0 | H9].
  - pose proof (find_no_wrist l None None H0) as F. rewrite E in F. discriminate.
  - pose proof (find_no_index l None None H9) as F. rewrite E in F. discriminate.
Qed.

End LiveRotation.

Module OfflineRotation.

Import HandDetection.

Lemma offline_find_no_wrist (l : list landmark) w i :
  (forall lm, In lm l -> landmark_id lm <> 0%Z) ->
  fst (find_wrist_and_index l w i) = w.
Proof.
  revert w i. induction l as [| lm rest IH]; intros w i Hl; [reflexivity |].
  simpl. destruct (Z.eqb_spec (landmark_id lm) 0) as [E | _].
  - exfalso. exact (Hl lm (or_introl eq_refl) E).
  - destruct (Z.eqb (landmark_id lm) 9); apply IH; intros x Hx; apply Hl; right; exact Hx.
Qed.

Lemma offline_find_no_index (l : list landmark) w i :
  (forall lm, In lm l -> landmark_id lm <> 9%Z) ->
  snd (find_wrist_and_index l w i) = i.
Proof.
  revert w i. induction l as [| lm rest IH]; intros w i Hl; [reflexivity |].
  simpl. destruct (Z.eqb (landmark_id lm) 0).
  - apply IH; intros x Hx; apply Hl; right; exact Hx.
  - destruct (Z.eqb_spec (landmark_id lm) 9) as [E | _].
    + exfalso. exact (Hl lm (or_introl eq_refl) E).
    + apply IH; intros x Hx; apply Hl; right; exact Hx.
Qed.

Lemma offline_find_wrist_in (l : list landmark) w0 i0 w i :
  find_wrist_and_index l w0 i0 = (Some w, i) ->
  w0 = Some w \/ (In w l /\ landmark_id w = 0%Z).
Proof.
  revert w0 i0. induction l as [| lm rest IH]; intros w0 i0 H.
  - simpl in H. injection H as -> _. left; reflexivity.
  - simpl in H. destruct (Z.eqb_spec (landmark_id lm) 0) as [E | _].
    + destruct (IH _ _ H) as [Hs | [Hin Hid]].
      * injection Hs as ->. right. split; [left; reflexivity | exact E].
      * right. split; [right; exact Hin | exact Hid].
    + destruct (Z.eqb (landmark_id lm) 9);
        destruct (IH _ _ H) as [Hs | [Hin Hid]]; auto;
        right; split; auto; right; exact Hin.
Qed.

Lemma offline_unchanged_without_refs (l : list landmark) :
  (forall lm, In lm l -> landmark_id lm <> 0%Z) \/
  (forall lm, In lm l -> landmark_id lm <> 9%Z) ->
  normalize_hand_rotation l = l.
Proof.
  intros Hl. unfold normalize_hand_rotation.
  destruct (find_wrist_and_index l None None) as [[w |] [i |]] eqn:E; try reflexivity.
  exfalso. destruct Hl as [H0 | H9].
  - pose proof (offline_find_no_wrist l None None H0) as F. rewrite E in F. discriminate.
  - pose proof (offline_find_no_index l None None H9) as F. rewrite E in F. discriminate.
Qed.

End OfflineRotation.

(** C10: a landmark list without a landmark of id 0, or without one of
    id 9 (the empty list included), is returned unchanged by both
    [normalize_hand_rotation]s (live_hand_tracker.py and
    hand_detection.py). *)
Theorem normalize_hand_rotation_missing_reference :
  (forall l : list (landmark_of R),
     (forall lm, In lm l -> landmark_id lm <> 0%Z) \/
     (forall lm, In lm l -> landmark_id lm <> 9%Z) ->
     normalize_hand_rotation l = l) /\
  (forall l : list HandDetection.landmark,
     (forall lm, In lm l -> HandDetection.landmark_id lm <> 0%Z) \/
     (forall lm, In lm l -> HandDetection.landmark_id lm <> 9%Z) ->
     HandDetection.normalize_hand_rotation l = l).
Proof.
  split; [apply LiveRotation.unchanged_without_refs
         | apply OfflineRotation.offline_unchanged_without_refs].
Qed.

(** C9: both [normalize_hand_rotation]s keep, for every landmark, its id,
    name, scaled z and raw (original) x, y, z; the offline one also keeps
    the wrist-relative original coordinates and the z entry of the
    wrist-relative scaled ones. *)
Theorem normalize_hand_rotation_frame :
  (forall l : list (landmark_of R),
     Forall2 (fun a b =>
                landmark_id b = landmark_id a /\ landmark_name b = landmark_name a /\
                z_scaled b = z_scaled a /\ x_raw b = x_raw a /\
                y_raw b = y_raw a /\ z_raw b = z_raw a)
             l (normalize_hand_rotation l)) /\
  (forall l : list HandDetection.landmark,
     Forall2 (fun a b =>
                HandDetection.landmark_id b = HandDetection.landmark_id a /\
                HandDetection.landmark_name b = HandDetection.landmark_name a /\
                HandDetection.z_scaled b = HandDetection.z_scaled a /\
                HandDetection.x_original b = HandDetection.x_original a /\
                HandDetection.y_original b = HandDetection.y_original a /\
                HandDetection.z_original b = HandDetection.z_original a /\
                HandDetection.relative_to_wrist_original b
                  = HandDetection.relative_to_wrist_original a /\
                HandDetection.rel_z (HandDetection.relative_to_wrist_scaled b)
                  = HandDetection.rel_z (HandDetection.relative_to_wrist_scaled a))
             l (HandDetection.normalize_hand_rotation l)).
Proof.
  split; intros l.
  - unfold normalize_hand_rotation.
    destruct (find_wrist_and_index l None None) as [[w |] [i |]];
      try (apply Forall2_self; intros; repeat split; reflexivity).
    destruct (_ && _);
      [apply Forall2_self | apply Forall2_map_self];
      intros; repeat split; reflexivity.
  - unfold HandDetection.normalize_hand_rotation.
    destruct (HandDetection.find_wrist_and_index l None None) as [[w |] [i |]];
      try (apply Forall2_self; intros; repeat split; reflexivity).
    destruct (_ && _);
      [apply Forall2_self | apply Forall2_map_self];
      intros; repeat split; reflexivity.
Qed.

Lemma Reqb_false (a c : R) :
  ~ (a = 0 /\ c = 0) -> Reqb a 0 && Reqb c 0 = false.
Proof.
  intros H. unfold Reqb.
  destruct (Req_dec_T a 0), (Req_dec_T c 0); tauto.
Qed.

Lemma Reqb_true (a c : R) : a = 0 -> c = 0 -> Reqb a 0 && Reqb c 0 = true.
Proof.
  intros -> ->. unfold Reqb. destruct (Req_dec_T 0 0); [reflexivity | contradiction].
Qed.

(** C4: when the wrist (the landmark of id 0 the search settles on) and
    the landmark of id 9 have different scaled positions, both
    [normalize_hand_rotation]s rotate every scaled (x, y) about the wrist
    by [-pi/2 - atan2(y9 - y0, x9 - x0)] and translate so that the wrist
    lands exactly on (1000, 2000); when the two positions coincide the
    input is returned unchanged. *)
Theorem normalize_hand_rotation_rotates_about_wrist :
  (forall (l : list (landmark_of R)) (w i : landmark_of R),
     find_wrist_and_index l None None = (Some w, Some i) ->
     let dx := x_scaled i - x_scaled w in
     let dy := y_scaled i - y_scaled w in
     let theta := - PI / 2 - atan2 dy dx in
     (~ (dx = 0 /\ dy = 0) ->
        map (fun lm => (x_scaled lm, y_scaled lm)) (normalize_hand_rotation l)
        = map (fun lm =>
                 ((x_scaled lm - x_scaled w) * cos theta
                  - (y_scaled lm - y_scaled w) * sin theta + 1000,
                  (x_scaled lm - x_scaled w) * sin theta
                  + (y_scaled lm - y_scaled w) * cos theta + 2000)) l /\
        In w l /\ landmark_id w = 0%Z /\
        (exists w', In w' (normalize_hand_rotation l) /\ landmark_id w' = 0%Z /\
                    x_scaled w' = 1000 /\ y_scaled w' = 2000)) /\
     (dx = 0 -> dy = 0 -> normalize_hand_rotation l = l)) /\
  (forall (l : list HandDetection.landmark) (w i : HandDetection.landmark),
     HandDetection.find_wrist_and_index l None None = (Some w, Some i) ->
     let dx := HandDetection.x_scaled i - HandDetection.x_scaled w in
     let dy := HandDetection.y_scaled i - HandDetection.y_scaled w in
     let theta := - PI / 2 - atan2 dy dx in
     (~ (dx = 0 /\ dy = 0) ->
        map (fun lm => (HandDetection.x_scaled lm, HandDetection.y_scaled lm))
          (HandDetection.normalize_hand_rotation l)
        = map (fun lm =>
                 ((HandDetection.x_scaled lm - HandDetection.x_scaled w) * cos theta
                  - (HandDetection.y_scaled lm - HandDetection.y_scaled w) * sin theta
                  + 1000,
                  (HandDetection.x_scaled lm - HandDetection.x_scaled w) * sin theta
                  + (HandDetection.y_scaled lm - HandDetection.y_scaled w) * cos theta
                  + 2000)) l /\
        In w l /\ HandDetection.landmark_id w = 0%Z /\
        (exists w', In w' (HandDetection.normalize_hand_rotation l) /\
                    HandDetection.landmark_id w' = 0%Z /\
                    HandDetection.x_scaled w' = 1000 /\
                    HandDetection.y_scaled w' = 2000)) /\
     (dx = 0 -> dy = 0 -> HandDetection.normalize_hand_rotation l = l)).
Proof.
  split.
  - intros l w i E. cbv zeta. split.
    + intros Hnd.
      destruct (LiveRotation.find_wrist_in l None None w (Some i) E)
        as [Hs | [Hin Hid]]; [discriminate |].
      unfold normalize_hand_rotation. rewrite E, (Reqb_false _ _ Hnd).
      cbv zeta. split; [| split; [exact Hin | split; [exact Hid |]]].
      * rewrite map_map. apply map_ext. intros lm. reflexivity.
      * eexists. split; [apply in_map; exact Hin |].
        cbn. split; [exact Hid | split; ring].
    + intros H1 H2. unfold normalize_hand_rotation.
      rewrite E, (Reqb_true _ _ H1 H2). reflexivity.
  - intros l w i E. cbv zeta. split.
    + intros Hnd.
      destruct (OfflineRotation.offline_find_wrist_in l None None w (Some i) E)
        as [Hs | [Hin Hid]]; [discriminate |].
      unfold HandDetection.normalize_hand_rotation.
      rewrite E, (Reqb_false _ _ Hnd).
      cbv zeta. split; [| split; [exact Hin | split; [exact Hid |]]].
      * rewrite map_map. apply map_ext. intros lm. reflexivity.
      * eexists. split; [apply in_map; exact Hin |].
        cbn. split; [exact Hid | split; ring].
    + intros H1 H2. unfold HandDetection.normalize_hand_rotation.
      rewrite E, (Reqb_true _ _ H1 H2). reflexivity.
Qed.

(** ** Edge-to-edge scaling *)

Lemma list_min_le (x0 : R) (xs : list R) : list_min x0 xs <= x0.
Proof.
  unfold list_min. revert x0. induction xs as [| x xs IH]; intros x0; simpl.
  - lra.
  - specialize (IH (Rmin x0 x)). pose proof (Rmin_l x0 x). lra.
Qed.

Lemma list_max_ge (x0 : R) (xs : list R) : x0 <= list_max x0 xs.
Proof.
  unfold list_max. revert x0. induction xs as [| x xs IH]; intros x0; simpl.
  - lra.
  - specialize (IH (Rmax x0 x)). pose proof (Rmax_l x0 x). lra.
Qed.

Lemma list_min_double (x0 : R) (xs : list R) :
  list_min (2 * x0) (map (fun r => 2 * r) xs) = 2 * list_min x0 xs.
Proof.
  unfold list_min. revert x0. induction xs as [| x xs IH]; intros x0; simpl.
  - reflexivity.
  - replace (Rmin (2 * x0) (2 * x)) with (2 * Rmin x0 x) by
      (unfold Rmin; destruct (Rle_dec x0 x), (Rle_dec (2 * x0) (2 * x)); lra).
    apply IH.
Qed.

Lemma list_max_double (x0 : R) (xs : list R) :
  list_max (2 * x0) (map (fun r => 2 * r) xs) = 2 * list_max x0 xs.
Proof.
  unfold list_max. revert x0. induction xs as [| x xs IH]; intros x0; simpl.
  - reflexivity.
  - replace (Rmax (2 * x0) (2 * x)) with (2 * Rmax x0 x) by
      (unfold Rmax; destruct (Rle_dec x0 x), (Rle_dec (2 * x0) (2 * x)); lra).
    apply IH.
Qed.

Lemma pad_of_width (lo hi : R) :
  lo <= hi -> 0 < (hi + pad_of lo hi) - (lo - pad_of lo hi).
Proof. intros H. unfold pad_of. destruct (Rlt_dec 0 (hi - lo)); lra. Qed.

Lemma edge_scaling_closed_form (l0 : mp_landmark) (rest : list mp_landmark)
    (W H : R) :
  let x0 := mp_x l0 * W in
  let xs := map (fun lm => mp_x lm * W) rest in
  let y0 := mp_y l0 * H in
  let ys := map (fun lm => mp_y lm * H) rest in
  let px := pad_of (list_min x0 xs) (list_max x0 xs) in
  let py := pad_of (list_min y0 ys) (list_max y0 ys) in
  let wx := (list_max x0 xs + px) - (list_min x0 xs - px) in
  let wy := (list_max y0 ys + py) - (list_min y0 ys - py) in
  let s := Rmin (2000 / wx) (2000 / wy) in
  0 < wx /\ 0 < wy /\
  calculate_edge_to_edge_scaling (l0 :: rest) W H
  = Some (mk_scaling (list_min x0 xs - px) (list_max x0 xs + px)
            (list_min y0 ys - py) (list_max y0 ys + py) s
            ((2000 - wx * s) / 2) ((2000 - wy * s) / 2) 2000).
Proof.
  intros x0 xs y0 ys px py wx wy s.
  assert (Hx : 0 < wx).
  { apply pad_of_width. pose proof (list_min_le x0 xs).
    pose proof (list_max_ge x0 xs). lra. }
  assert (Hy : 0 < wy).
  { apply pad_of_width. pose proof (list_min_le y0 ys).
    pose proof (list_max_ge y0 ys). lra. }
  split; [exact Hx | split; [exact Hy |]].
  unfold calculate_edge_to_edge_scaling. cbn [map]. cbv zeta.
  fold x0 xs y0 ys. fold (pad_of (list_min x0 xs) (list_max x0 xs)).
  fold (pad_of (list_min y0 ys) (list_max y0 ys)). fold px py. fold wx wy.
  destruct (Rlt_dec 0 wx); [| lra].
  destruct (Rlt_dec 0 wy); [| lra].
  reflexivity.
Qed.

(** C5: on the live-tracker path ([calculate_edge_to_edge_scaling]) the
    box is the raw min/max box padded on each side by 10% of the axis's
    range (by 10 units when that range is 0), and the scale factor is
    [min(2000 / width, 2000 / height)] of the padded box, the offsets
    centring it in the 2000 x 2000 square; the offline batch tool pads by
    10% of the range in the same way whenever both ranges are positive.
    The API path does not pad (see [api_scaling_skips_padding]). *)
Theorem edge_to_edge_scaling_padded_box :
  (forall (l0 : mp_landmark) (rest : list mp_landmark) (W H : R),
     let x0 := mp_x l0 * W in
     let xs := map (fun lm => mp_x lm * W) rest in
     let y0 := mp_y l0 * H in
     let ys := map (fun lm => mp_y lm * H) rest in
     exists si,
       calculate_edge_to_edge_scaling (l0 :: rest) W H = Some si /\
       min_x si = list_min x0 xs - pad_of (list_min x0 xs) (list_max x0 xs) /\
       max_x si = list_max x0 xs + pad_of (list_min x0 xs) (list_max x0 xs) /\
       min_y si = list_min y0 ys - pad_of (list_min y0 ys) (list_max y0 ys) /\
       max_y si = list_max y0 ys + pad_of (list_min y0 ys) (list_max y0 ys) /\
       0 < max_x si - min_x si /\ 0 < max_y si - min_y si /\
       scale_factor si = Rmin (2000 / (max_x si - min_x si))
                              (2000 / (max_y si - min_y si)) /\
       offset_x si = (2000 - (max_x si - min_x si) * scale_factor si) / 2 /\
       offset_y si = (2000 - (max_y si - min_y si) * scale_factor si) / 2) /\
  (forall (x0 : R) (xs : list R) (y0 : R) (ys : list R) (w h : R),
     0 < list_max x0 xs - list_min x0 xs ->
     0 < list_max y0 ys - list_min y0 ys ->
     let si := HandDetection.offline_scaling_info (x0 :: xs) (y0 :: ys) w h in
     min_x si = list_min x0 xs - (list_max x0 xs - list_min x0 xs) * (1 / 10) /\
     max_x si = list_max x0 xs + (list_max x0 xs - list_min x0 xs) * (1 / 10) /\
     min_y si = list_min y0 ys - (list_max y0 ys - list_min y0 ys) * (1 / 10) /\
     max_y si = list_max y0 ys + (list_max y0 ys - list_min y0 ys) * (1 / 10) /\
     scale_factor si = Rmin (2000 / (max_x si - min_x si))
                            (2000 / (max_y si - min_y si)) /\
     offset_x si = (2000 - (max_x si - min_x si) * scale_factor si) / 2 /\
     offset_y si = (2000 - (max_y si - min_y si) * scale_factor si) / 2).
Proof.
  split.
  - intros l0 rest W H x0 xs y0 ys.
    destruct (edge_scaling_closed_form l0 rest W H) as (Hx & Hy & E).
    eexists. split; [exact E |]. cbn. repeat split; auto.
  - intros x0 xs y0 ys w h Hx Hy si.
    unfold si, HandDetection.offline_scaling_info. cbv zeta.
    destruct (Rlt_dec 0 _) as [_ | Hn]; [| exfalso; apply Hn; lra].
    destruct (Rlt_dec 0 _) as [_ | Hn]; [| exfalso; apply Hn; lra].
    cbn. repeat split.
Qed.

(** C5 does not hold on the API path: for a hand whose raw coordinates
    span 0..100 on both axes, [process_landmarks_for_classifier] scales
    from the unpadded box (min_x 0, the point at x = 100 lands at 2000),
    while the live tracker and the offline tool that builds the reference
    library pad it by 10% (min_x -10, the same point lands at 5500 / 3). *)
Lemma api_scaling_skips_padding :
  (exists si, Main.api_scaling_info [0; 100] [0; 100] = Some si /\
     min_x si = 0 /\ max_x si = 100 /\
     fst (fst (scale_point (Some si) 100 100 0)) = 2000) /\
  (exists si,
     calculate_edge_to_edge_scaling [mk_mp 0 0 0; mk_mp 1 1 0] 100 100 = Some si /\
     min_x si = -10 /\ max_x si = 110 /\
     fst (fst (scale_point (Some si) (1 * 100) (1 * 100) (0 * 100))) = 5500 / 3) /\
  (let si := HandDetection.offline_scaling_info [0; 100] [0; 100] 640 480 in
   min_x si = -10 /\ max_x si = 110 /\
   (100 - min_x si) * scale_factor si + offset_x si = 5500 / 3).
Proof.
  assert (Hmin : list_min 0 [100] = 0)
    by (unfold list_min; simpl; unfold Rmin; destruct (Rle_dec 0 100); lra).
  assert (Hmax : list_max 0 [100] = 100)
    by (unfold list_max; simpl; unfold Rmax; destruct (Rle_dec 0 100); lra).
  split; [| split].
  - eexists. split; [reflexivity |]. cbn [min_x max_x].
    rewrite Hmin, Hmax. unfold Reqb.
    destruct (Req_dec_T 100 0); [lra |].
    rewrite Rmin_left by lra. simpl. repeat split; field.
  - destruct (edge_scaling_closed_form (mk_mp 0 0 0) [mk_mp 1 1 0] 100 100)
      as (_ & _ & E).
    cbn [map mp_x mp_y] in E.
    replace (0 * 100) with 0 in E by ring. replace (1 * 100) with 100 in E by ring.
    rewrite Hmin, Hmax in E. unfold pad_of in E.
    destruct (Rlt_dec 0 (100 - 0)); [| lra].
    eexists. split; [exact E |]. cbn [min_x max_x scale_point fst scale_factor offset_x].
    rewrite Rmin_left by lra. repeat split; field.
  - cbv zeta. unfold HandDetection.offline_scaling_info. cbv zeta.
    rewrite Hmin, Hmax. cbn [min_x max_x scale_factor offset_x].
    destruct (Rlt_dec 0 (100 + (100 - 0) * (1 / 10) - (0 - (100 - 0) * (1 / 10))));
      [| lra].
    rewrite Rmin_left by lra. repeat split; field.
Qed.

Lemma Rmin_half (a b : R) : Rmin (a / 2) (b / 2) = Rmin a b / 2.
Proof.
  unfold Rmin. destruct (Rle_dec (a / 2) (b / 2)), (Rle_dec a b); lra.
Qed.

Lemma coords_double (f : mp_landmark -> R) (W : R) (rest : list mp_landmark) :
  map (fun lm => f lm * (2 * W)) rest = map (fun r => 2 * r) (map (fun lm => f lm * W) rest).
Proof. rewrite map_map. apply map_ext. intros lm. ring. Qed.

Lemma pad_of_double (lo hi : R) :
  0 < hi - lo -> pad_of (2 * lo) (2 * hi) = 2 * pad_of lo hi.
Proof.
  intros Hr. unfold pad_of.
  destruct (Rlt_dec 0 (2 * hi - 2 * lo)), (Rlt_dec 0 (hi - lo)); lra.
Qed.

(** C8: with positive x and y ranges, scaling the landmarks of an image
    at twice the resolution (every raw coordinate doubled) gives the same
    scaled x and y as at the original resolution. *)
Theorem edge_to_edge_scaling_double_resolution (lms : list mp_landmark)
    (W H : R) :
  0 < coord_range (map (fun lm => mp_x lm * W) lms) ->
  0 < coord_range (map (fun lm => mp_y lm * H) lms) ->
  forall lm : mp_landmark,
    let '(x1, y1, _) :=
      scale_point (calculate_edge_to_edge_scaling lms W H)
        (mp_x lm * W) (mp_y lm * H) (mp_z lm * W) in
    let '(x2, y2, _) :=
      scale_point (calculate_edge_to_edge_scaling lms (2 * W) (2 * H))
        (mp_x lm * (2 * W)) (mp_y lm * (2 * H)) (mp_z lm * (2 * W)) in
    x2 = x1 /\ y2 = y1.
Proof.
  destruct lms as [| l0 rest]; [simpl; lra |].
  intros Hrx Hry lm.
  destruct (edge_scaling_closed_form l0 rest W H) as (Hx & Hy & E1).
  destruct (edge_scaling_closed_form l0 rest (2 * W) (2 * H)) as (_ & _ & E2).
  rewrite E1, E2. clear E1 E2. cbn zeta in *.
  rewrite !coords_double in *.
  replace (mp_x l0 * (2 * W)) with (2 * (mp_x l0 * W)) by ring.
  replace (mp_y l0 * (2 * H)) with (2 * (mp_y l0 * H)) by ring.
  rewrite !list_min_double, !list_max_double.
  cbn [map coord_range] in Hrx, Hry.
  rewrite (pad_of_double _ _ Hrx), (pad_of_double _ _ Hry).
  set (mnx := list_min (mp_x l0 * W) (map (fun lm0 => mp_x lm0 * W) rest)) in *.
  set (mxx := list_max (mp_x l0 * W) (map (fun lm0 => mp_x lm0 * W) rest)) in *.
  set (mny := list_min (mp_y l0 * H) (map (fun lm0 => mp_y lm0 * H) rest)) in *.
  set (mxy := list_max (mp_y l0 * H) (map (fun lm0 => mp_y lm0 * H) rest)) in *.
  set (px := pad_of mnx mxx) in *.
  set (py := pad_of mny mxy) in *.
  set (wx := mxx + px - (mnx - px)) in *.
  set (wy := mxy + py - (mny - py)) in *.
  replace (2 * mxx + 2 * px - (2 * mnx - 2 * px)) with (2 * wx) by (unfold wx; ring).
  replace (2 * mxy + 2 * py - (2 * mny - 2 * py)) with (2 * wy) by (unfold wy; ring).
  replace (2000 / (2 * wx)) with ((2000 / wx) / 2) by (field; try split; lra).
  replace (2000 / (2 * wy)) with ((2000 / wy) / 2) by (field; try split; lra).
  rewrite Rmin_half.
  set (s := Rmin (2000 / wx) (2000 / wy)).
  cbn. split; field.
Qed.

(** ** Witnesses *)

Lemma calculate_rms_distance_formula_witness :
  List.length (landmarks example_query_hand)
    = List.length (landmarks example_reference_hand) /\
  (0 < List.length (landmarks example_query_hand))%nat /\
  calculate_rms_distance (map lift_hand [example_query_hand])
    (mk_frame (map lift_hand [example_reference_hand]))
  = Fin (sqrt (/ INR (List.length (landmarks example_query_hand))
               * sum_sq_xy (landmarks example_query_hand)
                   (landmarks example_reference_hand))).
Proof.
  split; [reflexivity | split; [simpl; lia |]].
  apply (calculate_rms_distance_formula example_query_hand example_reference_hand [] []);
    [reflexivity | simpl; lia].
Defined.

Lemma find_closest_asl_match_orientation_penalty_witness :
  find_closest_asl_match [("a"%string, mk_frame [lift_hand example_reference_hand])]
    (mk_frame [lift_hand example_query_hand])
  = (Some "a"%string,
     penalised_distance_nonempty (Some "Right"%string) (Some "Left"%string)
       (Fin (sqrt (/ INR 2 * sum_sq_xy (landmarks example_query_hand)
                                (landmarks example_reference_hand)))),
     Some "Left"%string).
Proof.
  apply (proj2 find_closest_asl_match_orientation_penalty).
  exact (rms_distance_lift example_query_hand example_reference_hand [] []
           eq_refl ltac:(simpl; lia)).
Defined.

Lemma no_data_gives_no_match_witness :
  calculate_rms_distance [lift_hand example_query_hand]
    (mk_frame [lift_hand (mk_hand 0 "Right" 1 [mk_landmark 0 "WRIST" 0 0 0 0 0 0])])
  = PInf.
Proof.
  apply (proj2 (proj2 (proj2 (proj2 no_data_gives_no_match)))).
  simpl. lia.
Defined.

Lemma normalize_hand_rotation_rotates_about_wrist_witness :
  exists w', In w' (normalize_hand_rotation example_rotation_input) /\
             landmark_id w' = 0%Z /\ x_scaled w' = 1000 /\ y_scaled w' = 2000.
Proof.
  apply (proj1 (proj1 normalize_hand_rotation_rotates_about_wrist
                  example_rotation_input
                  (mk_landmark 0 "WRIST" 0 0 0 500 600 0)
                  (mk_landmark 9 "MIDDLE_FINGER_MCP" 0 0 0 700 600 0)
                  eq_refl)).
  simpl. lra.
Defined.

Lemma normalize_hand_rotation_missing_reference_witness :
  HandDetection.normalize_hand_rotation
    [HandDetection.mk_landmark 0 "WRIST" 0 0 0 500 600 0
       (HandDetection.mk_rel3 0 0 0) (HandDetection.mk_rel3 0 0 0)]
  = [HandDetection.mk_landmark 0 "WRIST" 0 0 0 500 600 0
       (HandDetection.mk_rel3 0 0 0) (HandDetection.mk_rel3 0 0 0)].
Proof.
  apply (proj2 normalize_hand_rotation_missing_reference).
  right. simpl. intros lm [<- | []]. simpl. lia.
Defined.

Lemma edge_to_edge_scaling_padded_box_witness :
  let si := HandDetection.offline_scaling_info [0; 10] [0; 10] 640 480 in
  min_x si = list_min 0 [10] - (list_max 0 [10] - list_min 0 [10]) * (1 / 10) /\
  max_x si = list_max 0 [10] + (list_max 0 [10] - list_min 0 [10]) * (1 / 10) /\
  min_y si = list_min 0 [10] - (list_max 0 [10] - list_min 0 [10]) * (1 / 10) /\
  max_y si = list_max 0 [10] + (list_max 0 [10] - list_min 0 [10]) * (1 / 10) /\
  scale_factor si = Rmin (2000 / (max_x si - min_x si))
                         (2000 / (max_y si - min_y si)) /\
  offset_x si = (2000 - (max_x si - min_x si) * scale_factor si) / 2 /\
  offset_y si = (2000 - (max_y si - min_y si) * scale_factor si) / 2.
Proof.
  assert (Hr : 0 < list_max 0 [10] - list_min 0 [10]).
  { unfold list_max, list_min. simpl. unfold Rmax, Rmin.
    destruct (Rle_dec 0 10); lra. }
  exact (proj2 edge_to_edge_scaling_padded_box 0 [10] 0 [10] 640 480 Hr Hr).
Defined.

Lemma edge_to_edge_scaling_double_resolution_witness :
  let '(x1, y1, _) :=
    scale_point (calculate_edge_to_edge_scaling example_mp_landmarks 1 1)
      (1 / 2 * 1) (1 / 2 * 1) (0 * 1) in
  let '(x2, y2, _) :=
    scale_point (calculate_edge_to_edge_scaling example_mp_landmarks (2 * 1) (2 * 1))
      (1 / 2 * (2 * 1)) (1 / 2 * (2 * 1)) (0 * (2 * 1)) in
  x2 = x1 /\ y2 = y1.
Proof.
  assert (Hr : 0 < coord_range (map (fun lm => mp_x lm * 1) example_mp_landmarks)).
  { unfold coord_range, list_max, list_min. simpl. unfold Rmax, Rmin.
    destruct (Rle_dec (0 * 1) (1 * 1)); lra. }
  assert (Hr' : 0 < coord_range (map (fun lm => mp_y lm * 1) example_mp_landmarks)).
  { unfold coord_range, list_max, list_min. simpl. unfold Rmax, Rmin.
    destruct (Rle_dec (0 * 1) (1 * 1)); lra. }
  exact (edge_to_edge_scaling_double_resolution example_mp_landmarks 1 1 Hr Hr'
           (mk_mp (1 / 2) (1 / 2) 0)).
Defined.

(* ================================================================== *)
(** * Further properties of the code *)

Lemma list_min_le_in (x0 : R) (xs : list R) (x : R) :
  In x (x0 :: xs) -> list_min x0 xs <= x.
Proof.
  revert x0. induction xs as [| a xs IH]; intros x0 Hin.
  - destruct Hin as [<- | []]. unfold list_min. simpl. lra.
  - unfold list_min. simpl. fold (list_min (Rmin x0 a) xs).
    destruct Hin as [-> | [-> | Hin]].
    + pose proof (list_min_le (Rmin x a) xs). pose proof (Rmin_l x a). lra.
    + pose proof (list_min_le (Rmin x0 x) xs). pose proof (Rmin_r x0 x). lra.
    + apply IH. right. exact Hin.
Qed.

Lemma list_max_ge_in (x0 : R) (xs : list R) (x : R) :
  In x (x0 :: xs) -> x <= list_max x0 xs.
Proof.
  revert x0. induction xs as [| a xs IH]; intros x0 Hin.
  - destruct Hin as [<- | []]. unfold list_max. simpl. lra.
  - unfold list_max. simpl. fold (list_max (Rmax x0 a) xs).
    destruct Hin as [-> | [-> | Hin]].
    + pose proof (list_max_ge (Rmax x a) xs). pose proof (Rmax_l x a). lra.
    + pose proof (list_max_ge (Rmax x0 x) xs). pose proof (Rmax_r x0 x). lra.
    + apply IH. right. exact Hin.
Qed.

Lemma canvas_bounds (lo hi x s : R) :
  lo <= x <= hi -> 0 < s -> (hi - lo) * s <= 2000 ->
  0 <= (x - lo) * s + (2000 - (hi - lo) * s) / 2 <= 2000.
Proof. intros [H1 H2] Hs Hw. split; nra. Qed.

Lemma scale_choice_ok (wd sc : R) :
  0 <= wd -> (wd = 0 /\ sc = 1) \/ (0 < wd /\ sc = 2000 / wd) ->
  0 < sc /\ wd * sc <= 2000.
Proof.
  intros Hw [[-> ->] | [Hp ->]]; [lra |].
  split; [apply Rdiv_lt_0_compat; lra | right; field; lra].
Qed.

Lemma rmin_scale_ok (wx wy a b : R) :
  0 <= wx -> 0 <= wy -> 0 < a /\ wx * a <= 2000 -> 0 < b /\ wy * b <= 2000 ->
  0 < Rmin a b /\ wx * Rmin a b <= 2000 /\ wy * Rmin a b <= 2000.
Proof.
  intros Hx Hy [Ha Hxa] [Hb Hyb].
  unfold Rmin. destruct (Rle_dec a b); repeat split; nra.
Qed.

Lemma pad_of_nonneg (lo hi : R) : lo <= hi -> 0 <= pad_of lo hi.
Proof. intros H. unfold pad_of. destruct (Rlt_dec 0 (hi - lo)); lra. Qed.

(** X1: the scaling step of [process_landmarks] (live_hand_tracker.py),
    applied with the [scaling_info] that [calculate_edge_to_edge_scaling]
    computes from a landmark list containing the landmark (in [main], the
    landmarks of all hands), gives an intermediate [x_scaled] and
    [y_scaled] inside the 2000 x 2000 canvas.  This is the value before
    [normalize_hand_rotation], which may move it out of the canvas. *)
Theorem live_scaled_coordinates_in_canvas (lms : list mp_landmark) (W H : R)
    (lm : mp_landmark) :
  In lm lms ->
  let '(x, y, _) :=
    scale_point (calculate_edge_to_edge_scaling lms W H)
      (mp_x lm * W) (mp_y lm * H) (mp_z lm * W) in
  0 <= x <= 2000 /\ 0 <= y <= 2000.
Proof.
  intros Hin. destruct lms as [| l0 rest]; [destruct Hin |].
  destruct (edge_scaling_closed_form l0 rest W H) as (Hx & Hy & E).
  rewrite E. cbn [scale_point min_x min_y scale_factor offset_x offset_y].
  set (x0 := mp_x l0 * W) in *. set (xs := map (fun lm => mp_x lm * W) rest) in *.
  set (y0 := mp_y l0 * H) in *. set (ys := map (fun lm => mp_y lm * H) rest) in *.
  assert (Hxi : In (mp_x lm * W) (x0 :: xs)).
  { destruct Hin as [<- | Hin]; [left; reflexivity | right].
    apply (in_map (fun lm => mp_x lm * W)); exact Hin. }
  assert (Hyi : In (mp_y lm * H) (y0 :: ys)).
  { destruct Hin as [<- | Hin]; [left; reflexivity | right].
    apply (in_map (fun lm => mp_y lm * H)); exact Hin. }
  pose proof (list_min_le_in _ _ _ Hxi). pose proof (list_max_ge_in _ _ _ Hxi).
  pose proof (list_min_le_in _ _ _ Hyi). pose proof (list_max_ge_in _ _ _ Hyi).
  pose proof (pad_of_nonneg (list_min x0 xs) (list_max x0 xs) ltac:(lra)).
  pose proof (pad_of_nonneg (list_min y0 ys) (list_max y0 ys) ltac:(lra)).
  set (px := pad_of (list_min x0 xs) (list_max x0 xs)) in *.
  set (py := pad_of (list_min y0 ys) (list_max y0 ys)) in *.
  set (wx := list_max x0 xs + px - (list_min x0 xs - px)) in *.
  set (wy := list_max y0 ys + py - (list_min y0 ys - py)) in *.
  destruct (rmin_scale_ok wx wy (2000 / wx) (2000 / wy) ltac:(lra) ltac:(lra)
              (scale_choice_ok wx _ ltac:(lra) (or_intror (conj Hx eq_refl)))
              (scale_choice_ok wy _ ltac:(lra) (or_intror (conj Hy eq_refl))))
    as (Hs & Hsx & Hsy).
  split; apply canvas_bounds;
    first [exact Hs | exact Hsx | exact Hsy | split; lra].
Qed.

Lemma reqb_scale_ok (mx mn : R) :
  mn <= mx ->
  0 < (if Reqb mx mn then 1 else 2000 / (mx - mn)) /\
  (mx - mn) * (if Reqb mx mn then 1 else 2000 / (mx - mn)) <= 2000.
Proof.
  intros H. unfold Reqb. destruct (Req_dec_T mx mn) as [E | E].
  - apply scale_choice_ok; [lra | left; split; [lra | reflexivity]].
  - apply scale_choice_ok; [lra | right; split; [lra | reflexivity]].
Qed.

(** X2: the scaling step of [process_landmarks_for_classifier]
    (main.py), with the unpadded scaling computed from the hand's own raw
    coordinates, gives every landmark of the hand an intermediate
    [x_scaled] and [y_scaled] inside the 2000 x 2000 canvas.  This is the
    value before [normalize_hand_rotation], which may move it out of the
    canvas. *)
Theorem api_scaled_coordinates_in_canvas (hand_data : hand_of R)
    (lm : landmark_of R) :
  In lm (landmarks hand_data) ->
  let '(x, y, _) :=
    scale_point (Main.api_scaling_info (map x_raw (landmarks hand_data))
                   (map y_raw (landmarks hand_data)))
      (x_raw lm) (y_raw lm) (z_raw lm) in
  0 <= x <= 2000 /\ 0 <= y <= 2000.
Proof.
  intros Hin. destruct (landmarks hand_data) as [| l0 rest]; [destruct Hin |].
  cbn [map Main.api_scaling_info]. cbv zeta.
  cbn [scale_point min_x min_y scale_factor offset_x offset_y].
  assert (Hxi : In (x_raw lm) (x_raw l0 :: map x_raw rest)).
  { destruct Hin as [<- | Hin]; [left; reflexivity | right; apply in_map; exact Hin]. }
  assert (Hyi : In (y_raw lm) (y_raw l0 :: map y_raw rest)).
  { destruct Hin as [<- | Hin]; [left; reflexivity | right; apply in_map; exact Hin]. }
  set (x0 := x_raw l0) in *. set (xs := map x_raw rest) in *.
  set (y0 := y_raw l0) in *. set (ys := map y_raw rest) in *.
  pose proof (list_min_le_in _ _ _ Hxi). pose proof (list_max_ge_in _ _ _ Hxi).
  pose proof (list_min_le_in _ _ _ Hyi). pose proof (list_max_ge_in _ _ _ Hyi).
  destruct (rmin_scale_ok (list_max x0 xs - list_min x0 xs)
              (list_max y0 ys - list_min y0 ys) _ _ ltac:(lra) ltac:(lra)
              (reqb_scale_ok (list_max x0 xs) (list_min x0 xs) ltac:(lra))
              (reqb_scale_ok (list_max y0 ys) (list_min y0 ys) ltac:(lra)))
    as (Hs & Hsx & Hsy).
  split; apply canvas_bounds;
    first [exact Hs | exact Hsx | exact Hsy | split; lra].
Qed.

(** X3: in [detect_hands_and_save_landmarks] (hand_detection.py), a point
    whose coordinates are among those the scaling was computed from lands
    inside the 2000 x 2000 canvas. *)
Theorem offline_scaled_coordinates_in_canvas (x0 : R) (xs : list R) (y0 : R)
    (ys : list R) (w h x y : R) :
  In x (x0 :: xs) -> In y (y0 :: ys) ->
  let si := HandDetection.offline_scaling_info (x0 :: xs) (y0 :: ys) w h in
  0 <= (x - min_x si) * scale_factor si + offset_x si <= 2000 /\
  0 <= (y - min_y si) * scale_factor si + offset_y si <= 2000.
Proof.
  intros Hxi Hyi si. unfold si, HandDetection.offline_scaling_info. cbv zeta.
  cbn [min_x min_y scale_factor offset_x offset_y].
  pose proof (list_min_le_in _ _ _ Hxi). pose proof (list_max_ge_in _ _ _ Hxi).
  pose proof (list_min_le_in _ _ _ Hyi). pose proof (list_max_ge_in _ _ _ Hyi).
  set (mnx := list_min x0 xs) in *. set (mxx := list_max x0 xs) in *.
  set (mny := list_min y0 ys) in *. set (mxy := list_max y0 ys) in *.
  set (wx := mxx + (mxx - mnx) * (1 / 10) - (mnx - (mxx - mnx) * (1 / 10))).
  set (wy := mxy + (mxy - mny) * (1 / 10) - (mny - (mxy - mny) * (1 / 10))).
  assert (Hcx : 0 < (if Rlt_dec 0 wx then 2000 / wx else 1) /\
                wx * (if Rlt_dec 0 wx then 2000 / wx else 1) <= 2000).
  { apply scale_choice_ok; [unfold wx; lra |].
    destruct (Rlt_dec 0 wx); [right; split; [assumption | reflexivity] |].
    left. split; [unfold wx in *; lra | reflexivity]. }
  assert (Hcy : 0 < (if Rlt_dec 0 wy then 2000 / wy else 1) /\
                wy * (if Rlt_dec 0 wy then 2000 / wy else 1) <= 2000).
  { apply scale_choice_ok; [unfold wy; lra |].
    destruct (Rlt_dec 0 wy); [right; split; [assumption | reflexivity] |].
    left. split; [unfold wy in *; lra | reflexivity]. }
  destruct (rmin_scale_ok wx wy _ _ ltac:(unfold wx; lra) ltac:(unfold wy; lra) Hcx Hcy)
    as (Hs & Hsx & Hsy).
  split; apply canvas_bounds;
    first [exact Hs | exact Hsx | exact Hsy | split; lra].
Qed.

(** X4: for a non-empty landmark list, the padded box of
    [calculate_edge_to_edge_scaling] is mapped to a box centred in the
    canvas that spans the full 0..2000 range along at least one axis. *)
Theorem live_padded_box_fills_canvas (l0 : mp_landmark) (rest : list mp_landmark)
    (W H : R) :
  exists si,
    calculate_edge_to_edge_scaling (l0 :: rest) W H = Some si /\
    let x_lo := (min_x si - min_x si) * scale_factor si + offset_x si in
    let x_hi := (max_x si - min_x si) * scale_factor si + offset_x si in
    let y_lo := (min_y si - min_y si) * scale_factor si + offset_y si in
    let y_hi := (max_y si - min_y si) * scale_factor si + offset_y si in
    0 <= x_lo /\ x_lo + x_hi = 2000 /\ 0 <= y_lo /\ y_lo + y_hi = 2000 /\
    ((x_lo = 0 /\ x_hi = 2000) \/ (y_lo = 0 /\ y_hi = 2000)).
Proof.
  destruct (edge_scaling_closed_form l0 rest W H) as (Hx & Hy & E).
  eexists. split; [exact E |].
  cbn [min_x max_x min_y max_y scale_factor offset_x offset_y].
  set (px := pad_of _ _). set (py := pad_of _ _).
  set (wx := list_max _ _ + px - (list_min _ _ - px)) in *.
  set (wy := list_max _ _ + py - (list_min _ _ - py)) in *.
  assert (Hs : (wx * Rmin (2000 / wx) (2000 / wy) = 2000 /\
                wy * Rmin (2000 / wx) (2000 / wy) <= 2000) \/
               (wy * Rmin (2000 / wx) (2000 / wy) = 2000 /\
                wx * Rmin (2000 / wx) (2000 / wy) <= 2000)).
  { assert (Hwx : 0 < wx).
    { unfold wx, px. apply pad_of_width.
      eapply Rle_trans; [apply list_min_le | apply list_max_ge]. }
    assert (Hwy : 0 < wy).
    { unfold wy, py. apply pad_of_width.
      eapply Rle_trans; [apply list_min_le | apply list_max_ge]. }
    assert (Ex : wx * (2000 / wx) = 2000) by (field; lra).
    assert (Ey : wy * (2000 / wy) = 2000) by (field; lra).
    unfold Rmin. destruct (Rle_dec (2000 / wx) (2000 / wy)) as [Hle | Hgt].
    - left. split; [exact Ex |].
      apply Rle_trans with (wy * (2000 / wy)); [apply Rmult_le_compat_l; lra | lra].
    - right. apply Rnot_le_lt in Hgt. split; [exact Ey |].
      apply Rle_trans with (wx * (2000 / wx)); [apply Rmult_le_compat_l; lra | lra]. }
  set (s := Rmin (2000 / wx) (2000 / wy)) in *. clearbody s wx wy px py.
  destruct Hs as [[A B] | [A B]];
    [repeat split; try lra; left | repeat split; try lra; right]; split; lra.
Qed.
Lemma sqrt_one_plus_ratio (dx dy : R) :
  dx <> 0 -> sqrt (1 + (dy / dx)²) = sqrt (dx * dx + dy * dy) / Rabs dx.
Proof.
  intros Hdx.
  assert (Hpos : 0 < dx * dx) by (apply Rsqr_pos_lt in Hdx; exact Hdx).
  replace (1 + (dy / dx)²) with ((dx * dx + dy * dy) / (dx * dx))
    by (unfold Rsqr; field; exact Hdx).
  rewrite sqrt_div_alt by exact Hpos.
  f_equal. rewrite <- sqrt_Rsqr_abs. reflexivity.
Qed.

Lemma atan2_cos_sin (dy dx : R) :
  ~ (dx = 0 /\ dy = 0) ->
  cos (atan2 dy dx) = dx / sqrt (dx * dx + dy * dy) /\
  sin (atan2 dy dx) = dy / sqrt (dx * dx + dy * dy).
Proof.
  intros Hnz.
  assert (Hr : 0 < sqrt (dx * dx + dy * dy)).
  { apply sqrt_lt_R0. destruct (Req_dec dx 0); [| nra].
    destruct (Req_dec dy 0); [tauto | nra]. }
  unfold atan2.
  destruct (Rlt_dec 0 dx) as [Hp | Hp].
  - rewrite cos_atan, sin_atan, sqrt_one_plus_ratio by lra.
    rewrite Rabs_right by lra. split; field; lra.
  - destruct (Rlt_dec dx 0) as [Hn | Hn].
    + assert (Hc : cos (atan (dy / dx)) = - dx / sqrt (dx * dx + dy * dy)).
      { rewrite cos_atan, sqrt_one_plus_ratio by lra.
        rewrite Rabs_left by lra. field; lra. }
      assert (Hs : sin (atan (dy / dx)) = - dy / sqrt (dx * dx + dy * dy)).
      { rewrite sin_atan, sqrt_one_plus_ratio by lra.
        rewrite Rabs_left by lra. field; lra. }
      destruct (Rle_dec 0 dy).
      * rewrite cos_plus, sin_plus, cos_PI, sin_PI, Hc, Hs. split; field; lra.
      * rewrite cos_minus, sin_minus, cos_PI, sin_PI, Hc, Hs. split; field; lra.
    + assert (dx = 0) by lra. subst dx.
      replace (0 * 0 + dy * dy) with (dy²) by (unfold Rsqr; ring).
      rewrite sqrt_Rsqr_abs.
      destruct (Rlt_dec 0 dy).
      * rewrite cos_PI2, sin_PI2, Rabs_right by lra. split; field; lra.
      * destruct (Rlt_dec dy 0); [| exfalso; apply Hnz; split; lra].
        rewrite cos_neg, sin_neg, cos_PI2, sin_PI2, Rabs_left by lra.
        split; field; lra.
Qed.

(** The rotation of [normalize_hand_rotation] sends the wrist-to-index
    vector to [(0, -r)]. *)
Lemma rotation_to_vertical_image (dx dy : R) :
  ~ (dx = 0 /\ dy = 0) ->
  let t := - PI / 2 - atan2 dy dx in
  dx * cos t - dy * sin t = 0 /\
  dx * sin t + dy * cos t = - sqrt (dx * dx + dy * dy).
Proof.
  intros Hnz t.
  destruct (atan2_cos_sin dy dx Hnz) as [Hc Hs].
  assert (Hr : 0 < sqrt (dx * dx + dy * dy)).
  { apply sqrt_lt_R0. destruct (Req_dec dx 0); [| nra].
    destruct (Req_dec dy 0); [tauto | nra]. }
  assert (Hsq : sqrt (dx * dx + dy * dy) * sqrt (dx * dx + dy * dy) = dx * dx + dy * dy)
    by (apply sqrt_sqrt; nra).
  assert (Ect : cos t = - sin (atan2 dy dx)).
  { unfold t. replace (- PI / 2) with (- (PI / 2)) by field.
    rewrite cos_minus, cos_neg, sin_neg, cos_PI2, sin_PI2. ring. }
  assert (Est : sin t = - cos (atan2 dy dx)).
  { unfold t. replace (- PI / 2) with (- (PI / 2)) by field.
    rewrite sin_minus, cos_neg, sin_neg, cos_PI2, sin_PI2. ring. }
  rewrite Ect, Est, Hc, Hs. split.
  - field. lra.
  - set (r := sqrt (dx * dx + dy * dy)) in *.
    transitivity (- (dx * dx + dy * dy) / r); [field; lra |].
    rewrite <- Hsq. field. lra.
Qed.

Lemma live_rotation_cases (l : list (landmark_of R)) :
  normalize_hand_rotation l = l \/
  exists wx wy t,
    normalize_hand_rotation l = map (rotate_landmark wx wy (cos t) (sin t)) l.
Proof.
  unfold normalize_hand_rotation.
  destruct (find_wrist_and_index l None None) as [[w |] [i |]]; auto.
  destruct (_ && _); auto. right. do 3 eexists. reflexivity.
Qed.

Lemma offline_rotation_cases (l : list HandDetection.landmark) :
  HandDetection.normalize_hand_rotation l = l \/
  exists wx wy t,
    HandDetection.normalize_hand_rotation l
    = map (HandDetection.rotate_landmark wx wy (cos t) (sin t)) l.
Proof.
  unfold HandDetection.normalize_hand_rotation.
  destruct (HandDetection.find_wrist_and_index l None None) as [[w |] [i |]]; auto.
  destruct (_ && _); auto. right. do 3 eexists. reflexivity.
Qed.

Lemma rotation_sq_dist (wx wy t ax ay bx by_ : R) :
  ((ax - wx) * cos t - (ay - wy) * sin t + 1000
   - ((bx - wx) * cos t - (by_ - wy) * sin t + 1000)) ^ 2
  + ((ax - wx) * sin t + (ay - wy) * cos t + 2000
     - ((bx - wx) * sin t + (by_ - wy) * cos t + 2000)) ^ 2
  = (ax - bx) ^ 2 + (ay - by_) ^ 2.
Proof.
  pose proof (sin2_cos2 t) as H. unfold Rsqr in H.
  transitivity ((sin t * sin t + cos t * cos t) * ((ax - bx) ^ 2 + (ay - by_) ^ 2));
    [ring | rewrite H; ring].
Qed.

(** X5: both [normalize_hand_rotation]s map every landmark by one function
    that preserves the Euclidean distance between the scaled (x, y)
    positions of any two landmarks. *)
Theorem normalize_hand_rotation_preserves_distances :
  (forall l : list (landmark_of R),
     exists f, normalize_hand_rotation l = map f l /\
       forall a b,
         (x_scaled (f a) - x_scaled (f b)) ^ 2 + (y_scaled (f a) - y_scaled (f b)) ^ 2
         = (x_scaled a - x_scaled b) ^ 2 + (y_scaled a - y_scaled b) ^ 2) /\
  (forall l : list HandDetection.landmark,
     exists f, HandDetection.normalize_hand_rotation l = map f l /\
       forall a b,
         (HandDetection.x_scaled (f a) - HandDetection.x_scaled (f b)) ^ 2
         + (HandDetection.y_scaled (f a) - HandDetection.y_scaled (f b)) ^ 2
         = (HandDetection.x_scaled a - HandDetection.x_scaled b) ^ 2
           + (HandDetection.y_scaled a - HandDetection.y_scaled b) ^ 2).
Proof.
  split; intros l.
  - destruct (live_rotation_cases l) as [E | (wx & wy & t & E)]; rewrite E.
    + exists (fun lm => lm). split; [symmetry; apply map_id | reflexivity].
    + eexists. split; [reflexivity |]. intros a b.
      cbn [rotate_landmark x_scaled y_scaled]. apply rotation_sq_dist.
  - destruct (offline_rotation_cases l) as [E | (wx & wy & t & E)]; rewrite E.
    + exists (fun lm => lm). split; [symmetry; apply map_id | reflexivity].
    + eexists. split; [reflexivity |]. intros a b.
      cbn [HandDetection.rotate_landmark HandDetection.x_scaled HandDetection.y_scaled].
      apply rotation_sq_dist.
Qed.

Lemma live_find_index_in (l : list (landmark_of R)) w0 i0 w i :
  find_wrist_and_index l w0 i0 = (w, Some i) -> i0 = Some i \/ In i l.
Proof.
  revert w0 i0. induction l as [| lm rest IH]; intros w0 i0 H.
  - simpl in H. injection H as _ ->. left; reflexivity.
  - simpl in H. destruct (Z.eqb (landmark_id lm) 0).
    + destruct (IH _ _ H) as [-> | Hin]; [left; reflexivity | right; right; exact Hin].
    + destruct (Z.eqb (landmark_id lm) 9).
      * destruct (IH _ _ H) as [Hs | Hin];
          [injection Hs as ->; right; left; reflexivity | right; right; exact Hin].
      * destruct (IH _ _ H) as [-> | Hin]; [left; reflexivity | right; right; exact Hin].
Qed.

Lemma offline_find_index_in (l : list HandDetection.landmark) w0 i0 w i :
  HandDetection.find_wrist_and_index l w0 i0 = (w, Some i) -> i0 = Some i \/ In i l.
Proof.
  revert w0 i0. induction l as [| lm rest IH]; intros w0 i0 H.
  - simpl in H. injection H as _ ->. left; reflexivity.
  - simpl in H. destruct (Z.eqb (HandDetection.landmark_id lm) 0).
    + destruct (IH _ _ H) as [-> | Hin]; [left; reflexivity | right; right; exact Hin].
    + destruct (Z.eqb (HandDetection.landmark_id lm) 9).
      * destruct (IH _ _ H) as [Hs | Hin];
          [injection Hs as ->; right; left; reflexivity | right; right; exact Hin].
      * destruct (IH _ _ H) as [-> | Hin]; [left; reflexivity | right; right; exact Hin].
Qed.

(** X6: when the wrist (id 0) and the middle-finger MCP (id 9) are found and
    differ in position, both [normalize_hand_rotation]s move the wrist to
    (1000, 2000) and the id-9 landmark to (1000, 2000 - d), straight above
    it, where d is their original distance. *)
Theorem normalize_hand_rotation_reference_straight_up :
  (forall (l : list (landmark_of R)) (w i : landmark_of R),
     find_wrist_and_index l None None = (Some w, Some i) ->
     let dx := x_scaled i - x_scaled w in
     let dy := y_scaled i - y_scaled w in
     ~ (dx = 0 /\ dy = 0) ->
     exists f, normalize_hand_rotation l = map f l /\ In w l /\ In i l /\
       x_scaled (f w) = 1000 /\ y_scaled (f w) = 2000 /\
       x_scaled (f i) = 1000 /\ y_scaled (f i) = 2000 - sqrt (dx * dx + dy * dy)) /\
  (forall (l : list HandDetection.landmark) (w i : HandDetection.landmark),
     HandDetection.find_wrist_and_index l None None = (Some w, Some i) ->
     let dx := HandDetection.x_scaled i - HandDetection.x_scaled w in
     let dy := HandDetection.y_scaled i - HandDetection.y_scaled w in
     ~ (dx = 0 /\ dy = 0) ->
     exists f, HandDetection.normalize_hand_rotation l = map f l /\ In w l /\ In i l /\
       HandDetection.x_scaled (f w) = 1000 /\ HandDetection.y_scaled (f w) = 2000 /\
       HandDetection.x_scaled (f i) = 1000 /\
       HandDetection.y_scaled (f i) = 2000 - sqrt (dx * dx + dy * dy)).
Proof.
  split.
  - intros l w i E dx dy Hnz.
    destruct (rotation_to_vertical_image dx dy Hnz) as [Hx Hy].
    unfold normalize_hand_rotation. rewrite E. cbv zeta.
    fold dx dy. rewrite (Reqb_false dx dy Hnz).
    eexists. split; [reflexivity |].
    split; [destruct (LiveRotation.find_wrist_in l None None w (Some i) E)
              as [H | [H _]]; [discriminate | exact H] |].
    split; [destruct (live_find_index_in l None None (Some w) i E)
              as [H | H]; [discriminate | exact H] |].
    cbn [rotate_landmark x_scaled y_scaled]. fold dx dy.
    repeat split; try ring; lra.
  - intros l w i E dx dy Hnz.
    destruct (rotation_to_vertical_image dx dy Hnz) as [Hx Hy].
    unfold HandDetection.normalize_hand_rotation. rewrite E. cbv zeta.
    fold dx dy. rewrite (Reqb_false dx dy Hnz).
    eexists. split; [reflexivity |].
    split; [destruct (OfflineRotation.offline_find_wrist_in l None None w (Some i) E)
              as [H | [H _]]; [discriminate | exact H] |].
    split; [destruct (offline_find_index_in l None None (Some w) i E)
              as [H | H]; [discriminate | exact H] |].
    cbn [HandDetection.rotate_landmark HandDetection.x_scaled HandDetection.y_scaled].
    fold dx dy. repeat split; try ring; lra.
Qed.

Lemma xsq_xsub_comm (a b : xR) : xsq (xsub a b) = xsq (xsub b a).
Proof.
  destruct a, b; unfold xsq, xsub; simpl; try reflexivity.
  f_equal; ring.
Qed.

Lemma rms_loop_comm (q r : list landmark) (t : xR) (v : nat) :
  rms_loop q r t v = rms_loop r q t v.
Proof.
  revert r t v. induction q as [| a qt IH]; intros [| b rt] t v; try reflexivity.
  simpl. rewrite IH, (xsq_xsub_comm (x_scaled a)), (xsq_xsub_comm (y_scaled a)).
  reflexivity.
Qed.

(** X7: [calculate_rms_distance] only reads the first hand on each side and
    is symmetric: swapping the live and the reference first hands gives
    the same value. *)
Theorem calculate_rms_distance_symmetric (q r : hand) (qs rs : list hand) :
  calculate_rms_distance (q :: qs) (mk_frame (r :: rs))
  = calculate_rms_distance [r] (mk_frame [q]).
Proof.
  unfold calculate_rms_distance. cbn [hands].
  rewrite Nat.eqb_sym, rms_loop_comm. reflexivity.
Qed.

Lemma sum_sq_xy_self (l : list (landmark_of R)) : sum_sq_xy l l = 0.
Proof. induction l as [| a l IH]; simpl; [reflexivity | rewrite IH; ring]. Qed.

Lemma adjusted_distance_zero (q r : option string) :
  adjusted_distance q r (Fin 0) = Fin 0.
Proof.
  unfold adjusted_distance. destruct (_ && _ && _); [simpl; f_equal; ring | reflexivity].
Qed.

(** X8: if the library holds an entry whose first hand has exactly the
    landmarks of the query's first hand (at least one, finite), the
    matcher returns a letter with distance 0. *)
Theorem find_closest_asl_match_exact_template (lib : list (string * frame))
    (letter : string) (h h' : hand_of R) (hs hs' : list (hand_of R)) :
  In (letter, mk_frame (map lift_hand (h' :: hs'))) lib ->
  landmarks h' = landmarks h ->
  (0 < List.length (landmarks h))%nat ->
  exists m lbl,
    find_closest_asl_match lib (mk_frame (map lift_hand (h :: hs))) = (Some m, Fin 0, lbl).
Proof.
  intros Hin Heq Hpos.
  set (live := mk_frame (map lift_hand (h :: hs))).
  assert (Hd : calculate_rms_distance (hands live) (mk_frame (map lift_hand (h' :: hs')))
               = Fin 0).
  { unfold live. cbn [hands].
    rewrite rms_distance_lift by first [exact Hpos | rewrite Heq; reflexivity].
    rewrite Heq, sum_sq_xy_self, Rmult_0_r, sqrt_0. reflexivity. }
  set (c0 := (letter, Fin 0, first_hand_label (mk_frame (map lift_hand (h' :: hs'))))
             : candidate).
  assert (Hc0 : In c0 (candidates lib live)).
  { unfold candidates. apply in_map_iff. eexists; split; [| exact Hin].
    unfold c0. rewrite Hd, adjusted_distance_zero. reflexivity. }
  rewrite find_closest_keep_min.
  destruct (keep_min_spec (candidates lib live) None PInf None) as
    [(pre & l & d & lbl & post & Hcs & Hlt & Hpre & Hpost & Hres) | (Hall & _)].
  - rewrite Hres. exists l, lbl.
    assert (Hdin : In (l, d, lbl) (candidates lib live))
      by (rewrite Hcs; apply in_or_app; right; left; reflexivity).
    destruct (candidates_shape lib live _ Hdin) as [Hd' | [Hd' | (x & Hx & Hd')]];
      unfold cand_dist in Hd'; simpl in Hd'; subst d; [discriminate | discriminate |].
    rewrite Hcs in Hc0. apply in_app_or in Hc0.
    destruct Hc0 as [Hc | [Hc | Hc]].
    + destruct (Hpre c0 Hc) as [H | H]; unfold c0, cand_dist in H; simpl in H;
        [destruct (Rlt_dec x 0); [lra | discriminate] | discriminate].
    + injection Hc as _ <- _. reflexivity.
    + specialize (Hpost c0 Hc). unfold c0, cand_dist in Hpost; simpl in Hpost.
      destruct (Rlt_dec 0 x) as [Hx' | Hx']; [discriminate |].
      replace x with 0 by lra. reflexivity.
  - specialize (Hall c0 Hc0). unfold c0, cand_dist in Hall. discriminate.
Qed.

Lemma hand_landmark_name_skipn (idx : nat) (name : string) :
  hand_landmark_name idx = Some name ->
  skipn idx hand_landmark_names = name :: skipn (S idx) hand_landmark_names.
Proof.
  unfold hand_landmark_name. generalize hand_landmark_names as l.
  induction idx as [| i IH]; intros [| a l] H; simpl in *; try discriminate.
  - injection H as ->. reflexivity.
  - apply IH. exact H.
Qed.

Lemma hand_landmark_name_some (idx : nat) :
  (idx < 21)%nat -> exists name, hand_landmark_name idx = Some name.
Proof.
  intros H. unfold hand_landmark_name.
  destruct (nth_error hand_landmark_names idx) as [name |] eqn:E; [eauto |].
  apply nth_error_None in E. simpl in E. lia.
Qed.

Lemma hand_landmark_name_none (idx : nat) :
  (21 <= idx)%nat -> hand_landmark_name idx = None.
Proof. intros H. unfold hand_landmark_name. apply nth_error_None. simpl. lia. Qed.

Lemma build_landmarks_cons (idx : nat) (lm : mp_landmark) (rest : list mp_landmark) W H si :
  build_landmarks idx (lm :: rest) W H si =
  let '(xs, ys, zs) := scale_point si (mp_x lm * W) (mp_y lm * H) (mp_z lm * W) in
  match hand_landmark_name idx, build_landmarks (S idx) rest W H si with
  | Some name, Some tl =>
      Some (mk_landmark (Z.of_nat idx) name (mp_x lm * W) (mp_y lm * H) (mp_z lm * W)
              xs ys zs :: tl)
  | _, _ => None
  end.
Proof. reflexivity. Qed.

Lemma build_landmarks_fail (idx : nat) (lm : mp_landmark) (rest : list mp_landmark) W H si :
  (21 <= idx + List.length rest)%nat -> build_landmarks idx (lm :: rest) W H si = None.
Proof.
  revert idx lm. induction rest as [| lm' rest IH]; intros idx lm Hge; simpl in Hge;
    rewrite build_landmarks_cons; destruct (scale_point _ _ _ _) as [[xs ys] zs].
  - rewrite hand_landmark_name_none by lia. reflexivity.
  - destruct (Nat.lt_ge_cases idx 21) as [Hl | Hge'].
    + destruct (hand_landmark_name idx); [| reflexivity].
      rewrite IH by lia. reflexivity.
    + rewrite hand_landmark_name_none by exact Hge'. reflexivity.
Qed.

Lemma build_landmarks_ok (idx : nat) (lms : list mp_landmark) W H si :
  (idx + List.length lms <= 21)%nat ->
  exists out, build_landmarks idx lms W H si = Some out /\
    map landmark_id out = map Z.of_nat (seq idx (List.length lms)) /\
    map landmark_name out = firstn (List.length lms) (skipn idx hand_landmark_names).
Proof.
  revert idx. induction lms as [| lm rest IH]; intros idx Hle; simpl in Hle.
  - exists []. simpl. auto.
  - simpl. destruct (scale_point _ _ _ _) as [[xs ys] zs].
    destruct (hand_landmark_name_some idx ltac:(lia)) as [name Hn]. rewrite Hn.
    destruct (IH (S idx) ltac:(lia)) as (tl & Htl & Hid & Hnm). rewrite Htl.
    eexists. split; [reflexivity |]. simpl.
    rewrite Hid, Hnm, (hand_landmark_name_skipn idx name Hn). auto.
Qed.

Lemma normalize_hand_rotation_ids_names (l : list (landmark_of R)) :
  map landmark_id (normalize_hand_rotation l) = map landmark_id l /\
  map landmark_name (normalize_hand_rotation l) = map landmark_name l.
Proof.
  destruct (live_rotation_cases l) as [E | (wx & wy & t & E)]; rewrite E; [auto |].
  rewrite !map_map. auto.
Qed.

(** X9: [process_landmarks] numbers its landmarks 0, 1, ... in input order
    and names them with the MediaPipe landmark names; a hand with more
    than 21 landmarks makes it fail ([HandLandmark(idx)] raises). *)
Theorem process_landmarks_ids_and_names (lms : list mp_landmark) (W H : R)
    (si : option scaling_info) :
  ((List.length lms <= 21)%nat ->
   exists out, process_landmarks lms W H si = Some out /\
     map landmark_id out = map Z.of_nat (seq 0 (List.length lms)) /\
     map landmark_name out = firstn (List.length lms) hand_landmark_names) /\
  ((21 < List.length lms)%nat -> process_landmarks lms W H si = None).
Proof.
  split; intros Hn; unfold process_landmarks.
  - destruct (build_landmarks_ok 0 lms W H si Hn) as (out & E & Hid & Hnm).
    rewrite E. eexists. split; [reflexivity |].
    destruct (normalize_hand_rotation_ids_names out) as [A B].
    rewrite A, B. auto.
  - destruct lms as [| lm rest]; simpl in Hn; [lia |].
    rewrite build_landmarks_fail by (simpl; lia). reflexivity.
Qed.

Section OfflineHandProofs.
Import HandDetection.

Lemma offline_build_cons (idx : nat) (lm : mp_landmark) (rest : list mp_landmark)
    (w h : R) (si : scaling_info) wrist :
  OfflineHand.build_landmarks idx (lm :: rest) w h si wrist =
  let x := mp_x lm * w in
  let y := mp_y lm * h in
  let z := mp_z lm * w in
  let x_scaled := (x - min_x si) * scale_factor si + offset_x si in
  let y_scaled := (y - min_y si) * scale_factor si + offset_y si in
  let z_scaled := z * scale_factor si in
  match hand_landmark_name idx with
  | None => None
  | Some name =>
      if Nat.eqb idx 0 then
        option_map
          (cons (mk_landmark (Z.of_nat idx) name x y z x_scaled y_scaled z_scaled
                   (mk_rel3 0 0 0) (mk_rel3 0 0 0)))
          (OfflineHand.build_landmarks (S idx) rest w h si
             (Some ((x, y, z), (x_scaled, y_scaled, z_scaled))))
      else
        match wrist with
        | Some ((wx, wy, wz), (wxs, wys, wzs)) =>
            option_map
              (cons (mk_landmark (Z.of_nat idx) name x y z x_scaled y_scaled z_scaled
                       (mk_rel3 (x - wx) (y - wy) (z - wz))
                       (mk_rel3 (x_scaled - wxs) (y_scaled - wys) (z_scaled - wzs))))
              (OfflineHand.build_landmarks (S idx) rest w h si wrist)
        | None => None
        end
  end.
Proof. reflexivity. Qed.

Lemma offline_build_tail (idx : nat) (rest : list mp_landmark) (w h : R)
    (si : scaling_info) (wx wy wz wxs wys wzs : R) :
  (1 <= idx)%nat -> (idx + List.length rest <= 21)%nat ->
  exists out,
    OfflineHand.build_landmarks idx rest w h si (Some ((wx, wy, wz), (wxs, wys, wzs)))
    = Some out /\
    forall lm, In lm out ->
      landmark_id lm <> 0%Z /\
      relative_to_wrist_original lm
      = mk_rel3 (x_original lm - wx) (y_original lm - wy) (z_original lm - wz) /\
      relative_to_wrist_scaled lm
      = mk_rel3 (x_scaled lm - wxs) (y_scaled lm - wys) (z_scaled lm - wzs).
Proof.
  revert idx. induction rest as [| lm rest IH]; intros idx H1 Hle; simpl in Hle.
  - exists []. split; [reflexivity | intros lm []].
  - rewrite offline_build_cons. cbv zeta.
    destruct (hand_landmark_name_some idx ltac:(lia)) as [name Hn]. rewrite Hn.
    destruct (Nat.eqb_spec idx 0) as [E | _]; [lia |].
    destruct (IH (S idx) ltac:(lia) ltac:(lia)) as (tl & Htl & Hall). rewrite Htl.
    eexists. split; [reflexivity |].
    intros l [<- | Hin]; [| exact (Hall l Hin)].
    simpl. split; [lia | auto].
Qed.

Lemma offline_rotation_cases_wrist (l : list landmark) (wr : landmark) :
  fst (find_wrist_and_index l None None) = Some wr ->
  normalize_hand_rotation l = l \/
  exists c s, normalize_hand_rotation l
              = map (rotate_landmark (x_scaled wr) (y_scaled wr) c s) l.
Proof.
  intros Hw. unfold normalize_hand_rotation.
  destruct (find_wrist_and_index l None None) as [[w |] [i |]]; simpl in Hw;
    try discriminate; auto.
  injection Hw as ->. destruct (_ && _); auto. right. do 2 eexists. reflexivity.
Qed.

Lemma rotate_rel_consistent (wx wy c s : R) (wr lm : landmark) :
  rel_consistent wr lm -> x_scaled wr = wx -> y_scaled wr = wy ->
  rel_consistent (rotate_landmark wx wy c s wr) (rotate_landmark wx wy c s lm).
Proof.
  unfold rel_consistent. intros (A & B & C & D & E & F) Hx Hy.
  cbn [rotate_landmark x_original y_original z_original x_scaled y_scaled z_scaled
       relative_to_wrist_original relative_to_wrist_scaled rel_x rel_y rel_z].
  subst wx wy. repeat split; try assumption; ring_simplify; try ring.
  all: rewrite F; ring.
Qed.

End OfflineHandProofs.

(** X10: for a hand of 1 to 21 landmarks, the landmarks stored by
    [detect_hands_and_save_landmarks] contain the wrist (id 0), and every
    landmark's [relative_to_wrist_original] and [relative_to_wrist_scaled]
    entries equal its position minus the wrist's, also after the rotation. *)
Theorem hand_landmarks_data_relative_to_wrist (lms : list mp_landmark) (w h : R)
    (si : scaling_info) :
  lms <> [] -> (List.length lms <= 21)%nat ->
  exists out wr,
    OfflineHand.hand_landmarks_data lms w h si = Some out /\
    In wr out /\ HandDetection.landmark_id wr = 0%Z /\
    forall lm, In lm out -> rel_consistent wr lm.
Proof.
  intros Hne Hle. destruct lms as [| l0 rest]; [congruence |]. simpl in Hle.
  unfold OfflineHand.hand_landmarks_data. rewrite offline_build_cons. cbv zeta.
  cbn [hand_landmark_name nth_error hand_landmark_names Nat.eqb].
  set (x := mp_x l0 * w). set (y := mp_y l0 * h). set (z := mp_z l0 * w).
  set (xs := (x - min_x si) * scale_factor si + offset_x si).
  set (ys := (y - min_y si) * scale_factor si + offset_y si).
  set (zs := z * scale_factor si).
  destruct (offline_build_tail 1 rest w h si x y z xs ys zs ltac:(lia) ltac:(lia))
    as (tl & Htl & Hall).
  rewrite Htl. cbn [option_map].
  set (w0 := HandDetection.mk_landmark (Z.of_nat 0) "WRIST" x y z xs ys zs
               (HandDetection.mk_rel3 0 0 0) (HandDetection.mk_rel3 0 0 0)).
  assert (Hcons : forall lm, In lm (w0 :: tl) -> rel_consistent w0 lm).
  { intros lm [<- | Hin].
    - unfold rel_consistent, w0; cbn. repeat split; ring.
    - destruct (Hall lm Hin) as (_ & Ho & Hs).
      unfold rel_consistent. rewrite Ho, Hs. unfold w0; cbn. repeat split; reflexivity. }
  assert (Hfind : fst (HandDetection.find_wrist_and_index (w0 :: tl) None None) = Some w0).
  { cbn [HandDetection.find_wrist_and_index w0 HandDetection.landmark_id Z.of_nat Z.eqb].
    apply OfflineRotation.offline_find_no_wrist. intros lm Hin. apply (Hall lm Hin). }
  destruct (offline_rotation_cases_wrist (w0 :: tl) w0 Hfind) as [E | (c & s & E)];
    rewrite E; do 2 eexists; split; try reflexivity.
  - split; [left; reflexivity | split; [reflexivity | exact Hcons]].
  - split; [left; reflexivity | split; [reflexivity |]].
    intros lm Hin. apply in_map_iff in Hin. destruct Hin as [l [<- Hl]].
    apply rotate_rel_consistent; [exact (Hcons l Hl) | reflexivity | reflexivity].
Qed.

Lemma find_closest_result_shape (lib : list (string * frame)) (live : frame) :
  find_closest_asl_match lib live = (None, PInf, None) \/
  exists letter r lbl, 0 <= r /\ In letter (map fst lib) /\
    find_closest_asl_match lib live = (Some letter, Fin r, lbl).
Proof.
  rewrite find_closest_keep_min.
  destruct (keep_min_spec (candidates lib live) None PInf None) as
    [(pre & letter & d & lbl & post & Hcs & Hd & _ & _ & Hres) | (_ & Hres)];
    rewrite Hres; [| left; reflexivity].
  assert (Hin : In (letter, d, lbl) (candidates lib live))
    by (rewrite Hcs; apply in_or_app; right; left; reflexivity).
  destruct (candidates_shape lib live _ Hin) as [Hc | [Hc | (x & Hx & Hc)]];
    unfold cand_dist in Hc; simpl in Hc; subst d; try discriminate.
  right. exists letter, x, lbl. split; [exact Hx | split; [| reflexivity]].
  unfold candidates in Hin. apply in_map_iff in Hin.
  destruct Hin as [[l asl] [Heq Hl]]. injection Heq as <- _ _.
  apply in_map_iff. exists (l, asl). auto.
Qed.

Lemma validate_hands_invalid (hs : list (hand_of xR)) (hd : hand_of xR) :
  In hd hs ->
  (List.length (landmarks hd) <> 21%nat \/
   exists lm, In lm (landmarks hd) /\ Api.coords_finite lm = false) ->
  exists msg, Api.validate_hands hs = Some msg /\
    (msg = Api.InvalidCoordinates \/
     exists n, msg = Api.InvalidLandmarkCount n /\ n <> 21%nat).
Proof.
  induction hs as [| h rest IH]; intros Hin Hbad; [destruct Hin |].
  simpl. destruct (Nat.eqb_spec (List.length (landmarks h)) 21) as [E | E];
    [simpl | simpl; eexists; split; [reflexivity | right; eauto]].
  destruct (forallb Api.coords_finite (landmarks h)) eqn:F.
  - destruct Hin as [<- | Hin]; [| exact (IH Hin Hbad)].
    exfalso. rewrite forallb_forall in F.
    destruct Hbad as [Hn | (lm & Hlm & Hf)]; [exact (Hn E) |].
    rewrite (F lm Hlm) in Hf. discriminate.
  - eexists. split; [reflexivity | left; reflexivity].
Qed.

(** X11: [predict_letter_from_landmarks] fails (no letter, confidence 0,
    distance 999999, no label) on a request without hands or with a hand
    that does not have 21 landmarks or has a non-finite coordinate, with
    the matching message. *)
Theorem predict_letter_rejects_invalid_requests
    (lib : list (string * frame)) (hs : list (hand_of xR)) :
  (hs = [] \/
   exists hd, In hd hs /\
     (List.length (landmarks hd) <> 21%nat \/
      exists lm, In lm (landmarks hd) /\ Api.coords_finite lm = false)) ->
  let r := Api.predict_letter_from_landmarks lib hs in
  Api.success r = false /\ Api.predicted_letter r = None /\
  Api.confidence r = 0 /\ Api.distance r = 999999 /\ Api.hand_label r = None /\
  (Api.message r = Api.NoHandData \/ Api.message r = Api.InvalidCoordinates \/
   exists n, Api.message r = Api.InvalidLandmarkCount n /\ n <> 21%nat).
Proof.
  intros Hbad r. unfold r, Api.predict_letter_from_landmarks.
  destruct Hbad as [-> | (hd & Hin & Hhd)].
  - simpl. repeat split; auto.
  - destruct hs as [| first rest]; [destruct Hin |].
    destruct (validate_hands_invalid _ hd Hin Hhd) as (msg & -> & Hmsg).
    simpl. repeat split; auto.
Qed.

(** X12: a response of [predict_letter_from_landmarks] is either a failure
    with the default fields, or a success for a valid request whose
    letter is the upper-cased library key found by the matcher at a
    finite, non-negative distance (the 999999 fallback is never used),
    with confidence [max(0, min(1, 1 - d / 1000))] in [0, 1] and the label
    of the first request hand. *)
Theorem predict_letter_response_shape
    (lib : list (string * frame)) (hs : list (hand_of xR)) :
  let r := Api.predict_letter_from_landmarks lib hs in
  (Api.success r = false /\ Api.predicted_letter r = None /\
   Api.confidence r = 0 /\ Api.distance r = 999999 /\ Api.hand_label r = None) \/
  (Api.success r = true /\ Api.validate_hands hs = None /\
   exists letter first rest lbl,
     hs = first :: rest /\ In letter (map fst lib) /\
     find_closest_asl_match lib (mk_frame (map Api.process_hand hs))
       = (Some letter, Fin (Api.distance r), lbl) /\
     Api.predicted_letter r = Some (Api.upper letter) /\
     Api.message r = Api.Predicted (Api.upper letter) /\
     Api.hand_label r = Some (hand_label first) /\
     0 <= Api.distance r /\
     Api.confidence r = Rmax 0 (Rmin 1 (1 - Api.distance r / 1000)) /\
     0 <= Api.confidence r <= 1).
Proof.
  intros r. unfold r, Api.predict_letter_from_landmarks.
  destruct hs as [| first rest]; [left; simpl; auto |].
  destruct (Api.validate_hands (first :: rest)) as [msg |] eqn:V;
    [left; simpl; auto |].
  destruct (find_closest_result_shape lib (mk_frame (map Api.process_hand (first :: rest))))
    as [E | (letter & d & lbl & Hd & Hin & E)]; rewrite E; [left; simpl; auto |].
  right. cbn [Api.success Api.distance Api.predicted_letter Api.message
              Api.hand_label Api.confidence].
  split; [reflexivity | split; [reflexivity |]].
  exists letter, first, rest, lbl. repeat split; auto.
  - apply Rmax_l.
  - apply Rmax_lub; [lra | apply Rmin_l].
Qed.

Lemma run_updates_snoc {Hd Si : Type} (pre : list (Tracker.update_call Hd Si))
    (c : Tracker.update_call Hd Si) :
  Tracker.run_updates (pre ++ [c])
  = let '(hs, si, now, w, h) := c in
    Tracker.update (Tracker.run_updates pre) hs si now w h.
Proof. unfold Tracker.run_updates. rewrite fold_left_app. reflexivity. Qed.

Lemma run_updates_unlocked {Hd Si : Type} (calls : list (Tracker.update_call Hd Si)) :
  Tracker._lock (Tracker.run_updates calls) = false.
Proof.
  induction calls as [| c pre IH] using rev_ind; [reflexivity |].
  rewrite run_updates_snoc. destruct c as [[[[hs si] now] w] h].
  unfold Tracker.update. rewrite IH. reflexivity.
Qed.

(** X13: a [LiveHandTracker] is never locked; a fresh one has no data and
    reports the defaults; after a sequence of [update] calls, [has_data]
    is true and [get_data] reports exactly the arguments of the last call
    and its number of hands. *)
Theorem tracker_reports_last_update {Hd Si : Type} :
  (forall calls : list (Tracker.update_call Hd Si),
     Tracker._lock (Tracker.run_updates calls) = false) /\
  Tracker.has_data (@Tracker.init Hd Si) = false /\
  Tracker.get_data (@Tracker.init Hd Si) = Tracker.mk_data None 640%Z 480%Z 0%nat None None /\
  (forall (pre : list (Tracker.update_call Hd Si)) hs si now w h,
     let st := Tracker.run_updates (pre ++ [(hs, si, now, w, h)]) in
     Tracker.has_data st = true /\
     Tracker.get_data st = Tracker.mk_data (Some now) w h (List.length hs) si (Some hs)).
Proof.
  split; [exact run_updates_unlocked |].
  split; [reflexivity | split; [reflexivity |]].
  intros pre hs si now w h st.
  assert (E : st = Tracker.update (Tracker.run_updates pre) hs si now w h)
    by (unfold st, Tracker.run_updates; rewrite fold_left_app; reflexivity).
  rewrite E. unfold Tracker.update.
  rewrite run_updates_unlocked. split; reflexivity.
Qed.

Lemma get_landmark_finger_is_color_key (name : string) :
  In (Fingers.get_landmark_finger name) (map fst Fingers.get_finger_colors).
Proof.
  unfold Fingers.get_landmark_finger.
  repeat match goal with |- context [if ?b then _ else _] => destruct b end;
    simpl; tauto.
Qed.

(** X14: the finger colouring of [create_landmark_visualization] is
    consistent: every non-wrist index of a finger's connection list is a
    landmark whose name [get_landmark_finger] maps to that finger, and
    [finger_colors[finger]] never raises, for any landmark name and for
    every finger of [finger_connections]. *)
Theorem finger_groups_agree :
  Forall (fun '(finger, connection_indices) =>
            Forall (fun idx => idx = 0%nat \/
                      option_map Fingers.get_landmark_finger (hand_landmark_name idx)
                      = Some finger)
              connection_indices)
    Fingers.finger_connections /\
  (forall landmark_name,
     In (Fingers.get_landmark_finger landmark_name) (map fst Fingers.get_finger_colors)) /\
  (forall finger, In finger (map fst Fingers.finger_connections) ->
     In finger (map fst Fingers.get_finger_colors)).
Proof.
  split; [| split].
  - unfold Fingers.finger_connections.
    repeat (apply Forall_cons || apply Forall_nil);
      first [left; reflexivity | right; vm_compute; reflexivity].
  - exact get_landmark_finger_is_color_key.
  - intros finger Hin. simpl in Hin |- *. tauto.
Qed.

Lemma load_fold_app (rj : string -> option frame) (ls : list string)
    (acc : list (string * frame)) :
  fold_left (fun d letter =>
               match rj (Loader.json_path letter) with
               | Some data => d ++ [(letter, data)]
               | None => d
               end) ls acc
  = acc ++ flat_map (fun letter =>
                       match rj (Loader.json_path letter) with
                       | Some data => [(letter, data)]
                       | None => []
                       end) ls.
Proof.
  revert acc. induction ls as [| l ls IH]; intros acc; simpl; [rewrite app_nil_r; reflexivity |].
  rewrite IH. destruct (rj (Loader.json_path l)); simpl; [rewrite <- app_assoc |];
    reflexivity.
Qed.

Lemma load_keys (rj : string -> option frame) (ls : list string) :
  map fst (flat_map (fun letter =>
                       match rj (Loader.json_path letter) with
                       | Some data => [(letter, data)]
                       | None => []
                       end) ls)
  = filter (fun letter => match rj (Loader.json_path letter) with
                          | Some _ => true | None => false end) ls.
Proof.
  induction ls as [| l ls IH]; simpl; [reflexivity |].
  destruct (rj (Loader.json_path l)); simpl; rewrite IH; reflexivity.
Qed.

Lemma asl_letters_nodup : NoDup Loader.asl_letters.
Proof.
  unfold Loader.asl_letters.
  repeat (apply NoDup_cons;
          [simpl; intros H; repeat (destruct H as [H | H]; [discriminate |]); exact H |]).
  apply NoDup_nil.
Qed.

(** X15: the letters loaded by [load_asl_alphabet_data] are distinct, and a
    letter is loaded exactly when the directory exists, the letter is one
    of [asl_letters] and its JSON file can be read. *)
Theorem load_asl_alphabet_data_keys (dir_exists : bool)
    (read_json : string -> option frame) :
  let keys := map fst (Loader.load_asl_alphabet_data dir_exists read_json) in
  NoDup keys /\
  (forall letter, In letter keys <->
     dir_exists = true /\ In letter Loader.asl_letters /\
     read_json (Loader.json_path letter) <> None).
Proof.
  intros keys. unfold keys, Loader.load_asl_alphabet_data.
  destruct dir_exists; simpl negb; cbv iota.
  - rewrite load_fold_app, app_nil_l, load_keys. split.
    + apply NoDup_filter, asl_letters_nodup.
    + intros letter. rewrite filter_In.
      destruct (read_json (Loader.json_path letter)); split;
        intros H; intuition (try discriminate; try congruence).
  - split; [constructor |]. intros letter. simpl. split; [intros [] | intros [H _]; discriminate].
Qed.

Lemma load_asl_alphabet_data_keys_in (dir_exists : bool)
    (read_json : string -> option frame) (letter : string) :
  In letter (map fst (Loader.load_asl_alphabet_data dir_exists read_json)) ->
  In letter Loader.asl_letters.
Proof.
  unfold Loader.load_asl_alphabet_data.
  destruct dir_exists; simpl negb; cbv iota; [| intros []].
  rewrite load_fold_app, app_nil_l, load_keys, filter_In. tauto.
Qed.

(** X16: with the library loaded by [load_asl_alphabet_data], the predicted
    letter of [/predict-letter] is absent or one of the capital letters
    A to Z. *)
Theorem predict_letter_is_capital_letter (dir_exists : bool)
    (read_json : string -> option frame) (hs : list (hand_of xR)) :
  let r := Api.predict_letter_from_landmarks
             (Loader.load_asl_alphabet_data dir_exists read_json) hs in
  Api.predicted_letter r = None \/
  exists p, Api.predicted_letter r = Some p /\
    In p ["A"; "B"; "C"; "D"; "E"; "F"; "G"; "H"; "I"; "J"; "K"; "L"; "M";
          "N"; "O"; "P"; "Q"; "R"; "S"; "T"; "U"; "V"; "W"; "X"; "Y"; "Z"]%string.
Proof.
  intros r. unfold r, Api.predict_letter_from_landmarks.
  set (lib := Loader.load_asl_alphabet_data dir_exists read_json).
  destruct hs as [| first rest]; [left; reflexivity |].
  destruct (Api.validate_hands (first :: rest)); [left; reflexivity |].
  destruct (find_closest_result_shape lib (mk_frame (map Api.process_hand (first :: rest))))
    as [E | (letter & d & lbl & _ & Hin & E)]; rewrite E; [left; reflexivity | right].
  eexists. split; [reflexivity |].
  pose proof (load_asl_alphabet_data_keys_in _ _ _ Hin) as Hl.
  unfold Loader.asl_letters in Hl. simpl in Hl.
  repeat destruct Hl as [<- | Hl]; [simpl; tauto .. | destruct Hl].
Qed.

(** ** Witnesses of the further properties *)

Lemma live_scaled_coordinates_in_canvas_witness :
  In (mk_mp 1 1 0) example_mp_landmarks /\
  let '(x, y, _) :=
    scale_point (calculate_edge_to_edge_scaling example_mp_landmarks 640 480)
      (mp_x (mk_mp 1 1 0) * 640) (mp_y (mk_mp 1 1 0) * 480) (mp_z (mk_mp 1 1 0) * 640) in
  0 <= x <= 2000 /\ 0 <= y <= 2000.
Proof.
  split; [right; left; reflexivity |].
  apply (live_scaled_coordinates_in_canvas example_mp_landmarks 640 480 (mk_mp 1 1 0)).
  right; left; reflexivity.
Defined.

Lemma api_scaled_coordinates_in_canvas_witness :
  In (mk_landmark 9 "MIDDLE_FINGER_MCP" 100 100 0 3 4 0) (landmarks example_query_hand) /\
  let '(x, y, _) :=
    scale_point (Main.api_scaling_info (map x_raw (landmarks example_query_hand))
                   (map y_raw (landmarks example_query_hand)))
      100 100 0 in
  0 <= x <= 2000 /\ 0 <= y <= 2000.
Proof.
  split; [right; left; reflexivity |].
  apply (api_scaled_coordinates_in_canvas example_query_hand
           (mk_landmark 9 "MIDDLE_FINGER_MCP" 100 100 0 3 4 0)).
  right; left; reflexivity.
Defined.

Lemma offline_scaled_coordinates_in_canvas_witness :
  In 10 [0; 10] /\ In 0 [0; 10] /\
  let si := HandDetection.offline_scaling_info [0; 10] [0; 10] 640 480 in
  0 <= (10 - min_x si) * scale_factor si + offset_x si <= 2000 /\
  0 <= (0 - min_y si) * scale_factor si + offset_y si <= 2000.
Proof.
  split; [right; left; reflexivity | split; [left; reflexivity |]].
  apply (offline_scaled_coordinates_in_canvas 0 [10] 0 [10] 640 480 10 0);
    [right; left; reflexivity | left; reflexivity].
Defined.

Lemma normalize_hand_rotation_reference_straight_up_witness :
  exists f, normalize_hand_rotation example_rotation_input = map f example_rotation_input /\
    In (mk_landmark 0 "WRIST" 0 0 0 500 600 0) example_rotation_input /\
    In (mk_landmark 9 "MIDDLE_FINGER_MCP" 0 0 0 700 600 0) example_rotation_input /\
    x_scaled (f (mk_landmark 0 "WRIST" 0 0 0 500 600 0)) = 1000 /\
    y_scaled (f (mk_landmark 0 "WRIST" 0 0 0 500 600 0)) = 2000 /\
    x_scaled (f (mk_landmark 9 "MIDDLE_FINGER_MCP" 0 0 0 700 600 0)) = 1000 /\
    y_scaled (f (mk_landmark 9 "MIDDLE_FINGER_MCP" 0 0 0 700 600 0))
    = 2000 - sqrt ((700 - 500) * (700 - 500) + (600 - 600) * (600 - 600)).
Proof.
  refine (proj1 normalize_hand_rotation_reference_straight_up example_rotation_input
            (mk_landmark 0 "WRIST" 0 0 0 500 600 0)
            (mk_landmark 9 "MIDDLE_FINGER_MCP" 0 0 0 700 600 0) eq_refl _).
  simpl. intros [Hx _]. lra.
Defined.

Lemma find_closest_asl_match_exact_template_witness :
  exists m lbl,
    find_closest_asl_match [("a"%string, mk_frame [lift_hand example_query_hand])]
      (mk_frame [lift_hand example_query_hand]) = (Some m, Fin 0, lbl).
Proof.
  apply (find_closest_asl_match_exact_template
           [("a"%string, mk_frame [lift_hand example_query_hand])] "a"
           example_query_hand example_query_hand [] []);
    [left; reflexivity | reflexivity | simpl; lia].
Defined.

Lemma hand_landmarks_data_relative_to_wrist_witness :
  exists out wr,
    OfflineHand.hand_landmarks_data example_mp_landmarks 640 480
      (mk_scaling 0 640 0 480 1 0 0 2000) = Some out /\
    In wr out /\ HandDetection.landmark_id wr = 0%Z /\
    forall lm, In lm out -> rel_consistent wr lm.
Proof.
  apply (hand_landmarks_data_relative_to_wrist example_mp_landmarks 640 480
           (mk_scaling 0 640 0 480 1 0 0 2000));
    [discriminate | simpl; lia].
Defined.

Lemma predict_letter_rejects_invalid_requests_witness :
  let r := Api.predict_letter_from_landmarks [] [mk_hand 0 "Right" (Fin 1) []] in
  Api.success r = false /\ Api.predicted_letter r = None /\
  Api.confidence r = 0 /\ Api.distance r = 999999 /\ Api.hand_label r = None /\
  (Api.message r = Api.NoHandData \/ Api.message r = Api.InvalidCoordinates \/
   exists n, Api.message r = Api.InvalidLandmarkCount n /\ n <> 21%nat).
Proof.
  apply (predict_letter_rejects_invalid_requests [] [mk_hand 0 "Right" (Fin 1) []]).
  right. exists (mk_hand 0 "Right" (Fin 1) []).
  split; [left; reflexivity | left; simpl; lia].
Defined.
